(** * Ethernet interface namespace (package [eth]) of the xapi client

    A shallow embedding of [netw/eth/eth.go]: the normalized [Entry], the two
    wire schemas ([entry_v1], [entry_v2]), the per-schema [Normalize] and
    [specify] functions, the version dispatch and the manager operations
    ([Get], [Show], [Set], [Edit], [Delete]) that drive the connection.

    Conventions of the embedding:
    - a Go [string] is a [string], a Go [int] is a [Z] (no arithmetic is done
      on the integers, they are only copied and compared with zero);
    - a pointer that may be [nil] is an [option];
    - a slice is an [option (list _)], [None] being the [nil] slice;
    - a [map[string]string] is an [option (gmap string string)], [None] being
      the [nil] map: reading a [nil] map finds nothing, writing to it panics;
    - a function that can panic returns an [outcome];
    - the functions of the packages [util] and [version], whose sources are
      not part of this package, are the methods of the class [Util]. *)

From Stdlib Require Import ZArith String Ascii List Bool.
From stdpp Require Import base option gmap strings.
Import ListNotations.
Open Scope string_scope.

(** ** Go values *)

Definition slice (A : Type) : Type := option (list A).

(** The result of running code that may panic. *)
Inductive outcome (A : Type) : Type :=
| Done (a : A)
| Panic (msg : string).
Arguments Done {A} a.
Arguments Panic {A} msg.

#[export] Instance outcome_ret : MRet outcome := fun A a => Done a.
#[export] Instance outcome_bind : MBind outcome := fun A B k x =>
  match x with
  | Done a => k a
  | Panic msg => Panic msg
  end.

(** [m[k] = v] on a map that may be [nil]. *)
Definition map_assign (m : option (gmap string string)) (k v : string)
  : outcome (option (gmap string string)) :=
  match m with
  | None => Panic "assignment to entry in nil map"
  | Some g => Done (Some (<[k:=v]> g))
  end.

(** [v, present := m[k]] on a map that may be [nil]; [Some v] when present. *)
Definition map_index (m : option (gmap string string)) (k : string)
  : option string :=
  match m with
  | None => None
  | Some g => g !! k
  end.

(** ** The normalized object *)

Record Entry : Type := mkEntry {
  Name : string;
  Mode : string;
  StaticIps : slice string;
  EnableDhcp : bool;
  CreateDhcpDefaultRoute : bool;
  DhcpDefaultRouteMetric : Z;
  Ipv6Enabled : bool;
  ManagementProfile : string;
  Mtu : Z;
  AdjustTcpMss : bool;
  NetflowProfile : string;
  LldpEnabled : bool;
  LldpProfile : string;
  LinkSpeed : string;
  LinkDuplex : string;
  LinkState : string;
  AggregateGroup : string;
  Comment : string;
  Ipv4MssAdjust : Z;
  Ipv6MssAdjust : Z;
  raw : option (gmap string string)
}.

(** [Entry{}] *)
Definition Entry_zero : Entry :=
  mkEntry "" "" None false false 0 false "" 0 false "" false "" "" "" "" ""
    "" 0 0 None.

(** Field assignments [ans.F = v]. *)
Definition set_Mode (v : string) (e : Entry) : Entry :=
  let 'mkEntry a _ c d f g h i j k l m n o p q r s t u w := e in
  mkEntry a v c d f g h i j k l m n o p q r s t u w.
Definition set_StaticIps (v : slice string) (e : Entry) : Entry :=
  let 'mkEntry a b _ d f g h i j k l m n o p q r s t u w := e in
  mkEntry a b v d f g h i j k l m n o p q r s t u w.
Definition set_EnableDhcp (v : bool) (e : Entry) : Entry :=
  let 'mkEntry a b c _ f g h i j k l m n o p q r s t u w := e in
  mkEntry a b c v f g h i j k l m n o p q r s t u w.
Definition set_CreateDhcpDefaultRoute (v : bool) (e : Entry) : Entry :=
  let 'mkEntry a b c d _ g h i j k l m n o p q r s t u w := e in
  mkEntry a b c d v g h i j k l m n o p q r s t u w.
Definition set_DhcpDefaultRouteMetric (v : Z) (e : Entry) : Entry :=
  let 'mkEntry a b c d f _ h i j k l m n o p q r s t u w := e in
  mkEntry a b c d f v h i j k l m n o p q r s t u w.
Definition set_Ipv6Enabled (v : bool) (e : Entry) : Entry :=
  let 'mkEntry a b c d f g _ i j k l m n o p q r s t u w := e in
  mkEntry a b c d f g v i j k l m n o p q r s t u w.
Definition set_ManagementProfile (v : string) (e : Entry) : Entry :=
  let 'mkEntry a b c d f g h _ j k l m n o p q r s t u w := e in
  mkEntry a b c d f g h v j k l m n o p q r s t u w.
Definition set_Mtu (v : Z) (e : Entry) : Entry :=
  let 'mkEntry a b c d f g h i _ k l m n o p q r s t u w := e in
  mkEntry a b c d f g h i v k l m n o p q r s t u w.
Definition set_AdjustTcpMss (v : bool) (e : Entry) : Entry :=
  let 'mkEntry a b c d f g h i j _ l m n o p q r s t u w := e in
  mkEntry a b c d f g h i j v l m n o p q r s t u w.
Definition set_NetflowProfile (v : string) (e : Entry) : Entry :=
  let 'mkEntry a b c d f g h i j k _ m n o p q r s t u w := e in
  mkEntry a b c d f g h i j k v m n o p q r s t u w.
Definition set_LldpEnabled (v : bool) (e : Entry) : Entry :=
  let 'mkEntry a b c d f g h i j k l _ n o p q r s t u w := e in
  mkEntry a b c d f g h i j k l v n o p q r s t u w.
Definition set_LldpProfile (v : string) (e : Entry) : Entry :=
  let 'mkEntry a b c d f g h i j k l m _ o p q r s t u w := e in
  mkEntry a b c d f g h i j k l m v o p q r s t u w.
Definition set_Ipv4MssAdjust (v : Z) (e : Entry) : Entry :=
  let 'mkEntry a b c d f g h i j k l m n o p q r s _ u w := e in
  mkEntry a b c d f g h i j k l m n o p q r s v u w.
Definition set_Ipv6MssAdjust (v : Z) (e : Entry) : Entry :=
  let 'mkEntry a b c d f g h i j k l m n o p q r s t _ w := e in
  mkEntry a b c d f g h i j k l m n o p q r s t v w.
Definition set_raw (v : option (gmap string string)) (e : Entry) : Entry :=
  let 'mkEntry a b c d f g h i j k l m n o p q r s t u _ := e in
  mkEntry a b c d f g h i j k l m n o p q r s t u v.

(** [ans.raw[k] = v] *)
Definition raw_store (k v : string) (ans : Entry) : outcome Entry :=
  m ← map_assign (raw ans) k v;
  Done (set_raw m ans).

(** ** The packages [util] and [version]

    [util.Entry] is the wire form of a list of addresses; its declaration and
    the bodies of the helpers are outside this package, so the development is
    parametric in them. *)

(** [version.Number], as built by the literal [version.Number{7, 1, 0, ""}]. *)
Record Number : Type := mkNumber {
  Major : Z;
  Minor : Z;
  Patch : Z;
  Suffix : string
}.

Class Util : Type := {
  util_Entry : Type;
  AsBool : string -> bool;
  YesNo : bool -> string;
  EntToStr : option util_Entry -> slice string;
  StrToEnt : slice string -> option util_Entry;
  CleanRawXml : string -> string;
  AsEntryXpath : slice string -> string;
  Gte : Number -> Number -> bool
}.

(** [util.RawXml], a struct with the single field [Text]. *)
Record RawXml : Type := mkRawXml { Text : string }.

(** ** Wire structs shared by both schemas *)

(** [struct {}] *)
Inductive emptyMode : Type := mk_emptyMode.

Module otherMode.
Record t : Type := mk {
  LldpEnabled : string;
  LldpProfile : string;
  NetflowProfile : string;
  Subinterface : option RawXml
}.
Definition set_Subinterface (v : option RawXml) (o : t) : t :=
  mk (LldpEnabled o) (LldpProfile o) (NetflowProfile o) v.
End otherMode.

Module ipv6.
Record t : Type := mk {
  Enabled : string;
  Address : option RawXml
}.
Definition set_Enabled (v : string) (o : t) : t :=
  mk v (Address o).
Definition set_Address (v : option RawXml) (o : t) : t :=
  mk (Enabled o) v.
End ipv6.

Module dhcpSettings.
Record t : Type := mk {
  Enable : string;
  CreateDefaultRoute : string;
  Metric : Z
}.
End dhcpSettings.

(** ** Schema v1 *)

Module l3Mode_v1.
Record t `{U : Util} : Type := mk {
  Ipv6 : ipv6.t;
  ManagementProfile : string;
  Mtu : Z;
  NetflowProfile : string;
  AdjustTcpMss : string;
  StaticIps : option util_Entry;
  Dhcp : option dhcpSettings.t;
  Arp : option RawXml;
  Subinterface : option RawXml
}.
Arguments mk {U}.
Definition set_Ipv6 `{U : Util} (v : ipv6.t) (o : t) : t :=
  mk v (ManagementProfile o) (Mtu o) (NetflowProfile o) (AdjustTcpMss o)
    (StaticIps o) (Dhcp o) (Arp o) (Subinterface o).
Definition set_Dhcp `{U : Util} (v : option dhcpSettings.t) (o : t) : t :=
  mk (Ipv6 o) (ManagementProfile o) (Mtu o) (NetflowProfile o)
    (AdjustTcpMss o) (StaticIps o) v (Arp o) (Subinterface o).
Definition set_Arp `{U : Util} (v : option RawXml) (o : t) : t :=
  mk (Ipv6 o) (ManagementProfile o) (Mtu o) (NetflowProfile o)
    (AdjustTcpMss o) (StaticIps o) (Dhcp o) v (Subinterface o).
Definition set_Subinterface `{U : Util} (v : option RawXml) (o : t) : t :=
  mk (Ipv6 o) (ManagementProfile o) (Mtu o) (NetflowProfile o)
    (AdjustTcpMss o) (StaticIps o) (Dhcp o) (Arp o) v.
End l3Mode_v1.

(** The field [XMLName] only names the XML element ([entry]) for the
    encoder; it carries no configuration and is not part of the model. *)
Module entry_v1.
Record t `{U : Util} : Type := mk {
  Name : string;
  ModeL2 : option otherMode.t;
  ModeL3 : option l3Mode_v1.t;
  ModeVwire : option otherMode.t;
  TapMode : option emptyMode;
  HaMode : option emptyMode;
  DecryptMirrorMode : option emptyMode;
  AggregateGroupMode : option emptyMode;
  LinkSpeed : string;
  LinkDuplex : string;
  LinkState : string;
  Comment : string
}.
Arguments mk {U}.
Definition set_ModeL2 `{U : Util} (v : option otherMode.t) (o : t) : t :=
  mk (Name o) v (ModeL3 o) (ModeVwire o) (TapMode o) (HaMode o)
    (DecryptMirrorMode o) (AggregateGroupMode o) (LinkSpeed o) (LinkDuplex o)
    (LinkState o) (Comment o).
Definition set_ModeL3 `{U : Util} (v : option l3Mode_v1.t) (o : t) : t :=
  mk (Name o) (ModeL2 o) v (ModeVwire o) (TapMode o) (HaMode o)
    (DecryptMirrorMode o) (AggregateGroupMode o) (LinkSpeed o) (LinkDuplex o)
    (LinkState o) (Comment o).
Definition set_ModeVwire `{U : Util} (v : option otherMode.t) (o : t) : t :=
  mk (Name o) (ModeL2 o) (ModeL3 o) v (TapMode o) (HaMode o)
    (DecryptMirrorMode o) (AggregateGroupMode o) (LinkSpeed o) (LinkDuplex o)
    (LinkState o) (Comment o).
Definition set_TapMode `{U : Util} (v : option emptyMode) (o : t) : t :=
  mk (Name o) (ModeL2 o) (ModeL3 o) (ModeVwire o) v (HaMode o)
    (DecryptMirrorMode o) (AggregateGroupMode o) (LinkSpeed o) (LinkDuplex o)
    (LinkState o) (Comment o).
Definition set_HaMode `{U : Util} (v : option emptyMode) (o : t) : t :=
  mk (Name o) (ModeL2 o) (ModeL3 o) (ModeVwire o) (TapMode o) v
    (DecryptMirrorMode o) (AggregateGroupMode o) (LinkSpeed o) (LinkDuplex o)
    (LinkState o) (Comment o).
Definition set_DecryptMirrorMode `{U : Util} (v : option emptyMode)
    (o : t) : t :=
  mk (Name o) (ModeL2 o) (ModeL3 o) (ModeVwire o) (TapMode o) (HaMode o) v
    (AggregateGroupMode o) (LinkSpeed o) (LinkDuplex o) (LinkState o)
    (Comment o).
Definition set_AggregateGroupMode `{U : Util} (v : option emptyMode)
    (o : t) : t :=
  mk (Name o) (ModeL2 o) (ModeL3 o) (ModeVwire o) (TapMode o) (HaMode o)
    (DecryptMirrorMode o) v (LinkSpeed o) (LinkDuplex o) (LinkState o)
    (Comment o).
End entry_v1.

Module container_v1.
Record t `{U : Util} : Type := mk { Answer : entry_v1.t }.
End container_v1.

(** ** Schema v2 *)

Module l3Mode_v2.
Record t `{U : Util} : Type := mk {
  Ipv6 : ipv6.t;
  ManagementProfile : string;
  Mtu : Z;
  NetflowProfile : string;
  AdjustTcpMss : string;
  Ipv4MssAdjust : Z;
  Ipv6MssAdjust : Z;
  StaticIps : option util_Entry;
  Dhcp : option dhcpSettings.t;
  Arp : option RawXml;
  Subinterface : option RawXml
}.
Arguments mk {U}.
Definition set_Ipv6 `{U : Util} (v : ipv6.t) (o : t) : t :=
  mk v (ManagementProfile o) (Mtu o) (NetflowProfile o) (AdjustTcpMss o)
    (Ipv4MssAdjust o) (Ipv6MssAdjust o) (StaticIps o) (Dhcp o) (Arp o)
    (Subinterface o).
Definition set_Dhcp `{U : Util} (v : option dhcpSettings.t) (o : t) : t :=
  mk (Ipv6 o) (ManagementProfile o) (Mtu o) (NetflowProfile o)
    (AdjustTcpMss o) (Ipv4MssAdjust o) (Ipv6MssAdjust o) (StaticIps o) v
    (Arp o) (Subinterface o).
Definition set_Arp `{U : Util} (v : option RawXml) (o : t) : t :=
  mk (Ipv6 o) (ManagementProfile o) (Mtu o) (NetflowProfile o)
    (AdjustTcpMss o) (Ipv4MssAdjust o) (Ipv6MssAdjust o) (StaticIps o)
    (Dhcp o) v (Subinterface o).
Definition set_Subinterface `{U : Util} (v : option RawXml) (o : t) : t :=
  mk (Ipv6 o) (ManagementProfile o) (Mtu o) (NetflowProfile o)
    (AdjustTcpMss o) (Ipv4MssAdjust o) (Ipv6MssAdjust o) (StaticIps o)
    (Dhcp o) (Arp o) v.
End l3Mode_v2.

Module entry_v2.
Record t `{U : Util} : Type := mk {
  Name : string;
  ModeL3 : option l3Mode_v2.t;
  ModeL2 : option otherMode.t;
  ModeVwire : option otherMode.t;
  TapMode : option emptyMode;
  HaMode : option emptyMode;
  DecryptMirrorMode : option emptyMode;
  AggregateGroupMode : option emptyMode;
  LinkSpeed : string;
  LinkDuplex : string;
  LinkState : string;
  Comment : string
}.
Arguments mk {U}.
Definition set_ModeL3 `{U : Util} (v : option l3Mode_v2.t) (o : t) : t :=
  mk (Name o) v (ModeL2 o) (ModeVwire o) (TapMode o) (HaMode o)
    (DecryptMirrorMode o) (AggregateGroupMode o) (LinkSpeed o) (LinkDuplex o)
    (LinkState o) (Comment o).
Definition set_ModeL2 `{U : Util} (v : option otherMode.t) (o : t) : t :=
  mk (Name o) (ModeL3 o) v (ModeVwire o) (TapMode o) (HaMode o)
    (DecryptMirrorMode o) (AggregateGroupMode o) (LinkSpeed o) (LinkDuplex o)
    (LinkState o) (Comment o).
Definition set_ModeVwire `{U : Util} (v : option otherMode.t) (o : t) : t :=
  mk (Name o) (ModeL3 o) (ModeL2 o) v (TapMode o) (HaMode o)
    (DecryptMirrorMode o) (AggregateGroupMode o) (LinkSpeed o) (LinkDuplex o)
    (LinkState o) (Comment o).
Definition set_TapMode `{U : Util} (v : option emptyMode) (o : t) : t :=
  mk (Name o) (ModeL3 o) (ModeL2 o) (ModeVwire o) v (HaMode o)
    (DecryptMirrorMode o) (AggregateGroupMode o) (LinkSpeed o) (LinkDuplex o)
    (LinkState o) (Comment o).
Definition set_HaMode `{U : Util} (v : option emptyMode) (o : t) : t :=
  mk (Name o) (ModeL3 o) (ModeL2 o) (ModeVwire o) (TapMode o) v
    (DecryptMirrorMode o) (AggregateGroupMode o) (LinkSpeed o) (LinkDuplex o)
    (LinkState o) (Comment o).
Definition set_DecryptMirrorMode `{U : Util} (v : option emptyMode)
    (o : t) : t :=
  mk (Name o) (ModeL3 o) (ModeL2 o) (ModeVwire o) (TapMode o) (HaMode o) v
    (AggregateGroupMode o) (LinkSpeed o) (LinkDuplex o) (LinkState o)
    (Comment o).
Definition set_AggregateGroupMode `{U : Util} (v : option emptyMode)
    (o : t) : t :=
  mk (Name o) (ModeL3 o) (ModeL2 o) (ModeVwire o) (TapMode o) (HaMode o)
    (DecryptMirrorMode o) v (LinkSpeed o) (LinkDuplex o) (LinkState o)
    (Comment o).
End entry_v2.

Module container_v2.
Record t `{U : Util} : Type := mk { Answer : entry_v2.t }.
End container_v2.

(** ** Normalize *)

Section Normalize.
Context `{U : Util}.

(** [(o *container_v1) Normalize()]. The literal that starts [ans] leaves
    [raw] at its zero value, the [nil] map. *)
Definition container_v1_Normalize (o : container_v1.t) : outcome Entry :=
  let a := container_v1.Answer o in
  let ans :=
    {| Name := entry_v1.Name a; Mode := ""; StaticIps := None;
       EnableDhcp := false; CreateDhcpDefaultRoute := false;
       DhcpDefaultRouteMetric := 0; Ipv6Enabled := false;
       ManagementProfile := ""; Mtu := 0; AdjustTcpMss := false;
       NetflowProfile := ""; LldpEnabled := false; LldpProfile := "";
       LinkSpeed := entry_v1.LinkSpeed a; LinkDuplex := entry_v1.LinkDuplex a;
       LinkState := entry_v1.LinkState a; AggregateGroup := "";
       Comment := entry_v1.Comment a; Ipv4MssAdjust := 0; Ipv6MssAdjust := 0;
       raw := None |} in
  match entry_v1.ModeL3 a with
  | Some l3 =>
    let ans := set_Mode "layer3" ans in
    let ans := set_Ipv6Enabled (AsBool (ipv6.Enabled (l3Mode_v1.Ipv6 l3))) ans in
    let ans := set_ManagementProfile (l3Mode_v1.ManagementProfile l3) ans in
    let ans := set_Mtu (l3Mode_v1.Mtu l3) ans in
    let ans := set_NetflowProfile (l3Mode_v1.NetflowProfile l3) ans in
    let ans := set_AdjustTcpMss (AsBool (l3Mode_v1.AdjustTcpMss l3)) ans in
    let ans := set_StaticIps (EntToStr (l3Mode_v1.StaticIps l3)) ans in
    let ans :=
      match l3Mode_v1.Dhcp l3 with
      | Some d =>
        let ans := set_EnableDhcp (AsBool (dhcpSettings.Enable d)) ans in
        let ans := set_CreateDhcpDefaultRoute
                     (AsBool (dhcpSettings.CreateDefaultRoute d)) ans in
        set_DhcpDefaultRouteMetric (dhcpSettings.Metric d) ans
      | None => ans
      end in
    ans ← match l3Mode_v1.Arp l3 with
          | Some r => raw_store "arp" (CleanRawXml (Text r)) ans
          | None => Done ans
          end;
    ans ← match l3Mode_v1.Subinterface l3 with
          | Some r => raw_store "l3subinterface" (CleanRawXml (Text r)) ans
          | None => Done ans
          end;
    ans ← match ipv6.Address (l3Mode_v1.Ipv6 l3) with
          | Some r => raw_store "ipv6" (CleanRawXml (Text r)) ans
          | None => Done ans
          end;
    Done ans
  | None =>
  match entry_v1.ModeL2 a with
  | Some l2 =>
    let ans := set_Mode "layer2" ans in
    let ans := set_LldpEnabled (AsBool (otherMode.LldpEnabled l2)) ans in
    let ans := set_LldpProfile (otherMode.LldpProfile l2) ans in
    let ans := set_NetflowProfile (otherMode.NetflowProfile l2) ans in
    ans ← match otherMode.Subinterface l2 with
          | Some r => raw_store "l2subinterface" (CleanRawXml (Text r)) ans
          | None => Done ans
          end;
    Done ans
  | None =>
  match entry_v1.ModeVwire a with
  | Some vw =>
    let ans := set_Mode "virtual-wire" ans in
    let ans := set_LldpEnabled (AsBool (otherMode.LldpEnabled vw)) ans in
    let ans := set_LldpProfile (otherMode.LldpProfile vw) ans in
    let ans := set_NetflowProfile (otherMode.NetflowProfile vw) ans in
    Done ans
  | None =>
  match entry_v1.TapMode a with
  | Some _ => Done (set_Mode "tap" ans)
  | None =>
  match entry_v1.HaMode a with
  | Some _ => Done (set_Mode "ha" ans)
  | None =>
  match entry_v1.DecryptMirrorMode a with
  | Some _ => Done (set_Mode "decrypt-mirror" ans)
  | None =>
  match entry_v1.AggregateGroupMode a with
  | Some _ => Done (set_Mode "aggregate-group" ans)
  | None => Done ans
  end end end end end end end.

(** [(o *container_v2) Normalize()]. Here [ans.raw] is made before the
    switch. *)
Definition container_v2_Normalize (o : container_v2.t) : outcome Entry :=
  let a := container_v2.Answer o in
  let ans :=
    {| Name := entry_v2.Name a; Mode := ""; StaticIps := None;
       EnableDhcp := false; CreateDhcpDefaultRoute := false;
       DhcpDefaultRouteMetric := 0; Ipv6Enabled := false;
       ManagementProfile := ""; Mtu := 0; AdjustTcpMss := false;
       NetflowProfile := ""; LldpEnabled := false; LldpProfile := "";
       LinkSpeed := entry_v2.LinkSpeed a; LinkDuplex := entry_v2.LinkDuplex a;
       LinkState := entry_v2.LinkState a; AggregateGroup := "";
       Comment := entry_v2.Comment a; Ipv4MssAdjust := 0; Ipv6MssAdjust := 0;
       raw := None |} in
  let ans := set_raw (Some ∅) ans in
  match entry_v2.ModeL3 a with
  | Some l3 =>
    let ans := set_Mode "layer3" ans in
    let ans := set_Ipv6Enabled (AsBool (ipv6.Enabled (l3Mode_v2.Ipv6 l3))) ans in
    let ans := set_ManagementProfile (l3Mode_v2.ManagementProfile l3) ans in
    let ans := set_Mtu (l3Mode_v2.Mtu l3) ans in
    let ans := set_NetflowProfile (l3Mode_v2.NetflowProfile l3) ans in
    let ans := set_AdjustTcpMss (AsBool (l3Mode_v2.AdjustTcpMss l3)) ans in
    let ans := set_Ipv4MssAdjust (l3Mode_v2.Ipv4MssAdjust l3) ans in
    let ans := set_Ipv6MssAdjust (l3Mode_v2.Ipv6MssAdjust l3) ans in
    let ans := set_StaticIps (EntToStr (l3Mode_v2.StaticIps l3)) ans in
    let ans :=
      match l3Mode_v2.Dhcp l3 with
      | Some d =>
        let ans := set_EnableDhcp (AsBool (dhcpSettings.Enable d)) ans in
        let ans := set_CreateDhcpDefaultRoute
                     (AsBool (dhcpSettings.CreateDefaultRoute d)) ans in
        set_DhcpDefaultRouteMetric (dhcpSettings.Metric d) ans
      | None => ans
      end in
    ans ← match l3Mode_v2.Arp l3 with
          | Some r => raw_store "arp" (CleanRawXml (Text r)) ans
          | None => Done ans
          end;
    ans ← match l3Mode_v2.Subinterface l3 with
          | Some r => raw_store "l3subinterface" (CleanRawXml (Text r)) ans
          | None => Done ans
          end;
    ans ← match ipv6.Address (l3Mode_v2.Ipv6 l3) with
          | Some r => raw_store "ipv6" (CleanRawXml (Text r)) ans
          | None => Done ans
          end;
    Done ans
  | None =>
  match entry_v2.ModeL2 a with
  | Some l2 =>
    let ans := set_Mode "layer2" ans in
    let ans := set_LldpEnabled (AsBool (otherMode.LldpEnabled l2)) ans in
    let ans := set_LldpProfile (otherMode.LldpProfile l2) ans in
    let ans := set_NetflowProfile (otherMode.NetflowProfile l2) ans in
    ans ← match otherMode.Subinterface l2 with
          | Some r => raw_store "l2subinterface" (CleanRawXml (Text r)) ans
          | None => Done ans
          end;
    Done ans
  | None =>
  match entry_v2.ModeVwire a with
  | Some vw =>
    let ans := set_Mode "virtual-wire" ans in
    let ans := set_LldpEnabled (AsBool (otherMode.LldpEnabled vw)) ans in
    let ans := set_LldpProfile (otherMode.LldpProfile vw) ans in
    let ans := set_NetflowProfile (otherMode.NetflowProfile vw) ans in
    Done ans
  | None =>
  match entry_v2.TapMode a with
  | Some _ => Done (set_Mode "tap" ans)
  | None =>
  match entry_v2.HaMode a with
  | Some _ => Done (set_Mode "ha" ans)
  | None =>
  match entry_v2.DecryptMirrorMode a with
  | Some _ => Done (set_Mode "decrypt-mirror" ans)
  | None =>
  match entry_v2.AggregateGroupMode a with
  | Some _ => Done (set_Mode "aggregate-group" ans)
  | None => Done ans
  end end end end end end end.

(** The interface [normalizer] and its two implementations. *)
Inductive normalizer : Type :=
| Obj_v1 (o : container_v1.t)
| Obj_v2 (o : container_v2.t).

Definition Normalize (o : normalizer) : outcome Entry :=
  match o with
  | Obj_v1 o => container_v1_Normalize o
  | Obj_v2 o => container_v2_Normalize o
  end.

End Normalize.

(** ** specify *)

Section Specify.
Context `{U : Util}.

(** What a specify function returns: an [interface{}] that holds the entry
    of one schema. *)
Inductive wire : Type :=
| Wire_v1 (e : entry_v1.t)
| Wire_v2 (e : entry_v2.t).

(** [&l3Mode_v1{StaticIps: .., ManagementProfile: .., Mtu: ..,
    NetflowProfile: .., AdjustTcpMss: ..}] *)
Definition new_l3Mode_v1 (e : Entry) : l3Mode_v1.t :=
  {| l3Mode_v1.Ipv6 := {| ipv6.Enabled := ""; ipv6.Address := None |};
     l3Mode_v1.ManagementProfile := ManagementProfile e;
     l3Mode_v1.Mtu := Mtu e;
     l3Mode_v1.NetflowProfile := NetflowProfile e;
     l3Mode_v1.AdjustTcpMss := YesNo (AdjustTcpMss e);
     l3Mode_v1.StaticIps := StrToEnt (StaticIps e);
     l3Mode_v1.Dhcp := None;
     l3Mode_v1.Arp := None;
     l3Mode_v1.Subinterface := None |}.

(** [&l3Mode_v2{.., Ipv4MssAdjust: .., Ipv6MssAdjust: ..}] *)
Definition new_l3Mode_v2 (e : Entry) : l3Mode_v2.t :=
  {| l3Mode_v2.Ipv6 := {| ipv6.Enabled := ""; ipv6.Address := None |};
     l3Mode_v2.ManagementProfile := ManagementProfile e;
     l3Mode_v2.Mtu := Mtu e;
     l3Mode_v2.NetflowProfile := NetflowProfile e;
     l3Mode_v2.AdjustTcpMss := YesNo (AdjustTcpMss e);
     l3Mode_v2.Ipv4MssAdjust := Ipv4MssAdjust e;
     l3Mode_v2.Ipv6MssAdjust := Ipv6MssAdjust e;
     l3Mode_v2.StaticIps := StrToEnt (StaticIps e);
     l3Mode_v2.Dhcp := None;
     l3Mode_v2.Arp := None;
     l3Mode_v2.Subinterface := None |}.

(** [&otherMode{LldpEnabled: .., LldpProfile: .., NetflowProfile: ..}] *)
Definition new_otherMode (e : Entry) : otherMode.t :=
  {| otherMode.LldpEnabled := YesNo (LldpEnabled e);
     otherMode.LldpProfile := LldpProfile e;
     otherMode.NetflowProfile := NetflowProfile e;
     otherMode.Subinterface := None |}.

(** [&dhcpSettings{..}] *)
Definition new_dhcpSettings (e : Entry) : dhcpSettings.t :=
  {| dhcpSettings.Enable := YesNo (EnableDhcp e);
     dhcpSettings.CreateDefaultRoute := YesNo (CreateDhcpDefaultRoute e);
     dhcpSettings.Metric := DhcpDefaultRouteMetric e |}.

(** [e.EnableDhcp || e.CreateDhcpDefaultRoute || e.DhcpDefaultRouteMetric != 0] *)
Definition wants_dhcp (e : Entry) : bool :=
  EnableDhcp e || CreateDhcpDefaultRoute e ||
  negb (DhcpDefaultRouteMetric e =? 0)%Z.

Definition specify_v1 (e : Entry) : wire :=
  let ans :=
    {| entry_v1.Name := Name e;
       entry_v1.ModeL2 := None; entry_v1.ModeL3 := None;
       entry_v1.ModeVwire := None; entry_v1.TapMode := None;
       entry_v1.HaMode := None; entry_v1.DecryptMirrorMode := None;
       entry_v1.AggregateGroupMode := None;
       entry_v1.LinkSpeed := LinkSpeed e;
       entry_v1.LinkDuplex := LinkDuplex e;
       entry_v1.LinkState := LinkState e;
       entry_v1.Comment := Comment e |} in
  if String.eqb (Mode e) "layer3" then
    let i := new_l3Mode_v1 e in
    let i := l3Mode_v1.set_Ipv6
               (ipv6.set_Enabled (YesNo (Ipv6Enabled e)) (l3Mode_v1.Ipv6 i)) i in
    let i := if wants_dhcp e
             then l3Mode_v1.set_Dhcp (Some (new_dhcpSettings e)) i
             else i in
    let i := match map_index (raw e) "arp" with
             | Some text => l3Mode_v1.set_Arp (Some (mkRawXml text)) i
             | None => i
             end in
    let i := match map_index (raw e) "l3subinterface" with
             | Some text => l3Mode_v1.set_Subinterface (Some (mkRawXml text)) i
             | None => i
             end in
    let i := match map_index (raw e) "ipv6" with
             | Some text =>
               l3Mode_v1.set_Ipv6
                 (ipv6.set_Address (Some (mkRawXml text)) (l3Mode_v1.Ipv6 i)) i
             | None => i
             end in
    Wire_v1 (entry_v1.set_ModeL3 (Some i) ans)
  else if String.eqb (Mode e) "layer2" then
    let i := new_otherMode e in
    let i := match map_index (raw e) "l2subinterface" with
             | Some text => otherMode.set_Subinterface (Some (mkRawXml text)) i
             | None => i
             end in
    Wire_v1 (entry_v1.set_ModeL2 (Some i) ans)
  else if String.eqb (Mode e) "virtual-wire" then
    let i := new_otherMode e in
    Wire_v1 (entry_v1.set_ModeVwire (Some i) ans)
  else if String.eqb (Mode e) "tap" then
    Wire_v1 (entry_v1.set_TapMode (Some mk_emptyMode) ans)
  else if String.eqb (Mode e) "ha" then
    Wire_v1 (entry_v1.set_HaMode (Some mk_emptyMode) ans)
  else if String.eqb (Mode e) "decrypt-mirror" then
    Wire_v1 (entry_v1.set_DecryptMirrorMode (Some mk_emptyMode) ans)
  else if String.eqb (Mode e) "aggregate-group" then
    Wire_v1 (entry_v1.set_AggregateGroupMode (Some mk_emptyMode) ans)
  else Wire_v1 ans.

Definition specify_v2 (e : Entry) : wire :=
  let ans :=
    {| entry_v2.Name := Name e;
       entry_v2.ModeL3 := None; entry_v2.ModeL2 := None;
       entry_v2.ModeVwire := None; entry_v2.TapMode := None;
       entry_v2.HaMode := None; entry_v2.DecryptMirrorMode := None;
       entry_v2.AggregateGroupMode := None;
       entry_v2.LinkSpeed := LinkSpeed e;
       entry_v2.LinkDuplex := LinkDuplex e;
       entry_v2.LinkState := LinkState e;
       entry_v2.Comment := Comment e |} in
  if String.eqb (Mode e) "layer3" then
    let i := new_l3Mode_v2 e in
    let i := l3Mode_v2.set_Ipv6
               (ipv6.set_Enabled (YesNo (Ipv6Enabled e)) (l3Mode_v2.Ipv6 i)) i in
    let i := if wants_dhcp e
             then l3Mode_v2.set_Dhcp (Some (new_dhcpSettings e)) i
             else i in
    let i := match map_index (raw e) "arp" with
             | Some text => l3Mode_v2.set_Arp (Some (mkRawXml text)) i
             | None => i
             end in
    let i := match map_index (raw e) "l3subinterface" with
             | Some text => l3Mode_v2.set_Subinterface (Some (mkRawXml text)) i
             | None => i
             end in
    let i := match map_index (raw e) "ipv6" with
             | Some text =>
               l3Mode_v2.set_Ipv6
                 (ipv6.set_Address (Some (mkRawXml text)) (l3Mode_v2.Ipv6 i)) i
             | None => i
             end in
    Wire_v2 (entry_v2.set_ModeL3 (Some i) ans)
  else if String.eqb (Mode e) "layer2" then
    let i := new_otherMode e in
    let i := match map_index (raw e) "l2subinterface" with
             | Some text => otherMode.set_Subinterface (Some (mkRawXml text)) i
             | None => i
             end in
    Wire_v2 (entry_v2.set_ModeL2 (Some i) ans)
  else if String.eqb (Mode e) "virtual-wire" then
    let i := new_otherMode e in
    Wire_v2 (entry_v2.set_ModeVwire (Some i) ans)
  else if String.eqb (Mode e) "tap" then
    Wire_v2 (entry_v2.set_TapMode (Some mk_emptyMode) ans)
  else if String.eqb (Mode e) "ha" then
    Wire_v2 (entry_v2.set_HaMode (Some mk_emptyMode) ans)
  else if String.eqb (Mode e) "decrypt-mirror" then
    Wire_v2 (entry_v2.set_DecryptMirrorMode (Some mk_emptyMode) ans)
  else if String.eqb (Mode e) "aggregate-group" then
    Wire_v2 (entry_v2.set_AggregateGroupMode (Some mk_emptyMode) ans)
  else Wire_v2 ans.

End Specify.

(** ** The connection *)

Section Client.
Context `{U : Util}.

(** [util.BulkElement]: the element name and the entries it carries. *)
Record BulkElement : Type := mkBulkElement {
  XMLName : string;
  Data : list wire
}.

(** The [interface{}] handed to the connection as the element to send. *)
Inductive element : Type :=
| Elem_wire (w : wire)
| Elem_bulk (b : BulkElement).

(** [(o BulkElement) Config()] of package [util]. *)
Class BulkConfig : Type := Config : BulkElement -> element.

(** An [interface{}] argument of [Delete]: a [string], an [Entry], or a value
    of any other dynamic type, [O] being the type of all such values. *)
Inductive any (O : Type) : Type :=
| AString (s : string)
| AEntry (e : Entry)
| AOther (o : O).

(** A Go [error]: one made outside this package, known by its message, or
    the one made by [fmt.Errorf(format, v)]. *)
Inductive error (O : Type) : Type :=
| Err (msg : string)
| Errorf (format : string) (v : any O).

(** The interface [util.XapiClient], as far as this package uses it. [conn]
    is the state of the connection and of the device behind it; a method
    takes the state and returns its results with the next state. [Get] and
    [Show] fill the object they are given and return it with the error; the
    bytes they also return are never used here. *)
Class XapiClient (O : Type) : Type := {
  conn : Type;
  Versioning : conn -> Number;
  LogQuery : string -> list string -> conn -> conn;
  LogAction : string -> list string -> conn -> conn;
  con_Get : list string -> normalizer -> conn ->
            normalizer * option (error O) * conn;
  con_Show : list string -> normalizer -> conn ->
             normalizer * option (error O) * conn;
  con_Set : list string -> element -> conn -> option (error O) * conn;
  con_Edit : list string -> element -> conn -> option (error O) * conn;
  con_Delete : list string -> conn -> option (error O) * conn;
  ImportInterfaces : string -> slice string -> conn -> option (error O) * conn;
  UnimportInterfaces : string -> slice string -> conn -> option (error O) * conn;
  EntryListUsing : bool -> list string -> conn ->
                   slice string * option (error O) * conn
}.

End Client.

Arguments AString {O} s.
Arguments AEntry {O} e.
Arguments AOther {O} o.
Arguments Err {O} msg.
Arguments Errorf {O} format v.

(** ** The namespace [Eth] *)

Section Eth.
Context `{U : Util} {B : BulkConfig} {O : Type} {C : XapiClient O}.

(** One invocation of a method of [c.con]. *)
Inductive call : Type :=
| Call_LogQuery (format : string) (args : list string)
| Call_LogAction (format : string) (args : list string)
| Call_Versioning
| Call_EntryListUsing (show : bool) (path : list string)
| Call_Get (path : list string) (obj : normalizer)
| Call_Show (path : list string) (obj : normalizer)
| Call_Set (path : list string) (elt : element)
| Call_Edit (path : list string) (elt : element)
| Call_Delete (path : list string)
| Call_ImportInterfaces (vsys : string) (names : slice string)
| Call_UnimportInterfaces (vsys : string) (names : slice string).

(** A method of [Eth] runs on the connection state; it ends with a value or a
    panic, leaves a next state, and has made the listed calls, in order. *)
Definition M (A : Type) : Type := conn -> outcome A * conn * list call.

#[export] Instance M_ret : MRet M := fun A a d => (Done a, d, []).
#[export] Instance M_bind : MBind M := fun A B k m d =>
  match m d with
  | (Done a, d1, t1) => let '(r, d2, t2) := k a d1 in (r, d2, (t1 ++ t2)%list)
  | (Panic msg, d1, t1) => (Panic msg, d1, t1)
  end.

Definition lift {A : Type} (x : outcome A) : M A := fun d => (x, d, []).

Definition do_Versioning : M Number :=
  fun d => (Done (Versioning d), d, [Call_Versioning]).
Definition do_LogQuery (format : string) (args : list string) : M unit :=
  fun d => (Done tt, LogQuery format args d, [Call_LogQuery format args]).
Definition do_LogAction (format : string) (args : list string) : M unit :=
  fun d => (Done tt, LogAction format args d, [Call_LogAction format args]).
Definition do_Get (path : list string) (obj : normalizer)
  : M (normalizer * option (error O)) :=
  fun d => let '(r, d1) := con_Get path obj d in
           (Done r, d1, [Call_Get path obj]).
Definition do_Show (path : list string) (obj : normalizer)
  : M (normalizer * option (error O)) :=
  fun d => let '(r, d1) := con_Show path obj d in
           (Done r, d1, [Call_Show path obj]).
Definition do_Set (path : list string) (elt : element) : M (option (error O)) :=
  fun d => let '(r, d1) := con_Set path elt d in (Done r, d1, [Call_Set path elt]).
Definition do_Edit (path : list string) (elt : element) : M (option (error O)) :=
  fun d => let '(r, d1) := con_Edit path elt d in (Done r, d1, [Call_Edit path elt]).
Definition do_Delete (path : list string) : M (option (error O)) :=
  fun d => let '(r, d1) := con_Delete path d in (Done r, d1, [Call_Delete path]).
Definition do_ImportInterfaces (vsys : string) (names : slice string)
  : M (option (error O)) :=
  fun d => let '(r, d1) := ImportInterfaces vsys names d in
           (Done r, d1, [Call_ImportInterfaces vsys names]).
Definition do_UnimportInterfaces (vsys : string) (names : slice string)
  : M (option (error O)) :=
  fun d => let '(r, d1) := UnimportInterfaces vsys names d in
           (Done r, d1, [Call_UnimportInterfaces vsys names]).
Definition do_EntryListUsing (show : bool) (path : list string)
  : M (slice string * option (error O)) :=
  fun d => let '(r, d1) := EntryListUsing show path d in
           (Done r, d1, [Call_EntryListUsing show path]).

(** [&container_v1{}] and [&container_v2{}] *)
Definition container_v1_zero : container_v1.t :=
  {| container_v1.Answer :=
       entry_v1.mk "" None None None None None None None "" "" "" "" |}.
Definition container_v2_zero : container_v2.t :=
  {| container_v2.Answer :=
       entry_v2.mk "" None None None None None None None "" "" "" "" |}.

Definition Eth_versioning : M (normalizer * (Entry -> wire)) :=
  v ← do_Versioning;
  if Gte v (mkNumber 7 1 0 "")
  then mret (Obj_v2 container_v2_zero, specify_v2)
  else mret (Obj_v1 container_v1_zero, specify_v1).

Definition Eth_xpath (vals : slice string) : list string :=
  [ "config";
    "devices";
    AsEntryXpath (Some ["localhost.localdomain"]);
    "network";
    "interface";
    "ethernet";
    AsEntryXpath vals ].

Definition Eth_details
    (fn : list string -> normalizer -> M (normalizer * option (error O)))
    (name : string) : M (Entry * option (error O)) :=
  let path := Eth_xpath (Some [name]) in
  '(obj, _) ← Eth_versioning;
  '(obj, err) ← fn path obj;
  match err with
  | Some err => mret (Entry_zero, Some err)
  | None =>
    ans ← lift (Normalize obj);
    mret (ans, None)
  end.

Definition Eth_ShowList : M (slice string * option (error O)) :=
  _ ← do_LogQuery "(show) list of ethernet interfaces" [];
  let path := Eth_xpath None in
  do_EntryListUsing true (firstn (length path - 1) path).

Definition Eth_GetList : M (slice string * option (error O)) :=
  _ ← do_LogQuery "(get) list of ethernet interfaces" [];
  let path := Eth_xpath None in
  do_EntryListUsing false (firstn (length path - 1) path).

Definition Eth_Get (name : string) : M (Entry * option (error O)) :=
  _ ← do_LogQuery "(get) ethernet interface %q" [name];
  Eth_details do_Get name.

Definition Eth_Show (name : string) : M (Entry * option (error O)) :=
  _ ← do_LogQuery "(show) ethernet interface %q" [name];
  Eth_details do_Show name.

Definition Eth_Set (vsys : string) (e : list Entry) : M (option (error O)) :=
  if Nat.eqb (length e) 0 then mret None else
  '(_, fn) ← Eth_versioning;
  let names := map Name e in
  let d := {| XMLName := "ethernet"; Data := map fn e |} in
  _ ← do_LogAction "(set) ethernet interfaces: %v" names;
  let path := Eth_xpath (Some names) in
  let path := if Nat.eqb (length e) 1
              then firstn (length path - 1) path
              else firstn (length path - 2) path in
  err ← do_Set path (Config d);
  match err with
  | Some err => mret (Some err)
  | None => do_ImportInterfaces vsys (Some names)
  end.

Definition Eth_Edit (vsys : string) (e : Entry) : M (option (error O)) :=
  '(_, fn) ← Eth_versioning;
  _ ← do_LogAction "(edit) ethernet interface: %v" [Name e];
  let path := Eth_xpath (Some [Name e]) in
  err ← do_Edit path (Elem_wire (fn e));
  match err with
  | Some err => mret (Some err)
  | None => do_ImportInterfaces vsys (Some [Name e])
  end.

(** The loop of [Delete] that fills [names], stopping at the first value
    that is neither a [string] nor an [Entry]. *)
Fixpoint delete_names (e : list (any O)) (names : list string)
  : error O + list string :=
  match e with
  | [] => inr names
  | AString v :: rest => delete_names rest (names ++ [v])%list
  | AEntry v :: rest => delete_names rest (names ++ [Name v])%list
  | AOther v :: _ => inl (Errorf "Unknown type sent to delete: %s" (AOther v))
  end.

Definition Eth_Delete (vsys : string) (e : list (any O)) : M (option (error O)) :=
  if Nat.eqb (length e) 0 then mret None else
  match delete_names e [] with
  | inl err => mret (Some err)
  | inr names =>
    _ ← do_LogAction "(delete) ethernet interface(s): %v" names;
    err ← do_UnimportInterfaces vsys (Some names);
    match err with
    | Some err => mret (Some err)
    | None =>
      let path := Eth_xpath (Some names) in
      do_Delete path
    end
  end.

End Eth.

(** ** Reading the results *)

(** The [dhcp-client] sub-object of an emitted entry, if there is one. *)
Definition wire_dhcp `{U : Util} (w : wire) : option dhcpSettings.t :=
  match w with
  | Wire_v1 a => i ← entry_v1.ModeL3 a; l3Mode_v1.Dhcp i
  | Wire_v2 a => i ← entry_v2.ModeL3 a; l3Mode_v2.Dhcp i
  end.

(** Whether an emitted entry has a [layer3] sub-object. *)
Definition wire_has_layer3 `{U : Util} (w : wire) : bool :=
  match w with
  | Wire_v1 a => bool_decide (is_Some (entry_v1.ModeL3 a))
  | Wire_v2 a => bool_decide (is_Some (entry_v2.ModeL3 a))
  end.

(** An [int] field tagged [omitempty] yields an element only when it is not
    zero. *)
Definition omitempty (n : Z) : option Z :=
  if (n =? 0)%Z then None else Some n.

(** The [ipv4-mss-adjustment] and [ipv6-mss-adjustment] elements of an
    emitted entry: schema v1 has no such elements, schema v2 has them under
    [layer3], both tagged [omitempty]. *)
Definition wire_mss `{U : Util} (w : wire) : option Z * option Z :=
  match w with
  | Wire_v1 _ => (None, None)
  | Wire_v2 a =>
    match entry_v2.ModeL3 a with
    | Some i => (omitempty (l3Mode_v2.Ipv4MssAdjust i),
                 omitempty (l3Mode_v2.Ipv6MssAdjust i))
    | None => (None, None)
    end
  end.

(** The seven mode tags, in the order [Normalize] looks for them. *)
Definition mode_tags : list string :=
  ["layer3"; "layer2"; "virtual-wire"; "tap"; "ha"; "decrypt-mirror";
   "aggregate-group"].

(** For each tag, whether the wire object has that mode's sub-object. *)
Definition present_v1 `{U : Util} (a : entry_v1.t) : list bool :=
  [ bool_decide (is_Some (entry_v1.ModeL3 a));
    bool_decide (is_Some (entry_v1.ModeL2 a));
    bool_decide (is_Some (entry_v1.ModeVwire a));
    bool_decide (is_Some (entry_v1.TapMode a));
    bool_decide (is_Some (entry_v1.HaMode a));
    bool_decide (is_Some (entry_v1.DecryptMirrorMode a));
    bool_decide (is_Some (entry_v1.AggregateGroupMode a)) ].

Definition present_v2 `{U : Util} (a : entry_v2.t) : list bool :=
  [ bool_decide (is_Some (entry_v2.ModeL3 a));
    bool_decide (is_Some (entry_v2.ModeL2 a));
    bool_decide (is_Some (entry_v2.ModeVwire a));
    bool_decide (is_Some (entry_v2.TapMode a));
    bool_decide (is_Some (entry_v2.HaMode a));
    bool_decide (is_Some (entry_v2.DecryptMirrorMode a));
    bool_decide (is_Some (entry_v2.AggregateGroupMode a)) ].

Definition present `{U : Util} (o : normalizer) : list bool :=
  match o with
  | Obj_v1 o => present_v1 (container_v1.Answer o)
  | Obj_v2 o => present_v2 (container_v2.Answer o)
  end.

(** The first tag whose sub-object is present, the empty string when none
    is: the mode the specification says [Normalize] selects. *)
Fixpoint first_present (tags : list string) (flags : list bool) : string :=
  match tags, flags with
  | t :: tags, f :: flags => if f then t else first_present tags flags
  | _, _ => ""
  end.

Definition selected `{U : Util} (o : normalizer) : string :=
  first_present mode_tags (present o).

(** The number of mode sub-objects that are present; a wire object is well
    formed when it is one. *)
Fixpoint count_present (flags : list bool) : nat :=
  match flags with
  | [] => 0
  | f :: flags => (if f then 1 else 0) + count_present flags
  end.

Definition well_formed `{U : Util} (o : normalizer) : Prop :=
  count_present (present o) = 1.

(** The fields of each group of the normalized object are at their zero
    values. *)
Definition layer3_fields_zero (e : Entry) : Prop :=
  StaticIps e = None /\ EnableDhcp e = false /\
  CreateDhcpDefaultRoute e = false /\ DhcpDefaultRouteMetric e = 0%Z /\
  Ipv6Enabled e = false /\ ManagementProfile e = "" /\ Mtu e = 0%Z /\
  AdjustTcpMss e = false /\ Ipv4MssAdjust e = 0%Z /\ Ipv6MssAdjust e = 0%Z /\
  map_index (raw e) "arp" = None /\
  map_index (raw e) "l3subinterface" = None /\
  map_index (raw e) "ipv6" = None.

Definition lldp_fields_zero (e : Entry) : Prop :=
  LldpEnabled e = false /\ LldpProfile e = "".

Definition no_fragments (e : Entry) : Prop :=
  forall k : string, map_index (raw e) k = None.

(** The identity and link fields of a record, on a v1 and on a v2 entry
    without any mode sub-object. *)
Definition bare_v1 `{U : Util} (e : Entry) : entry_v1.t :=
  {| entry_v1.Name := Name e;
     entry_v1.ModeL2 := None; entry_v1.ModeL3 := None;
     entry_v1.ModeVwire := None; entry_v1.TapMode := None;
     entry_v1.HaMode := None; entry_v1.DecryptMirrorMode := None;
     entry_v1.AggregateGroupMode := None;
     entry_v1.LinkSpeed := LinkSpeed e;
     entry_v1.LinkDuplex := LinkDuplex e;
     entry_v1.LinkState := LinkState e;
     entry_v1.Comment := Comment e |}.

Definition bare_v2 `{U : Util} (e : Entry) : entry_v2.t :=
  {| entry_v2.Name := Name e;
     entry_v2.ModeL3 := None; entry_v2.ModeL2 := None;
     entry_v2.ModeVwire := None; entry_v2.TapMode := None;
     entry_v2.HaMode := None; entry_v2.DecryptMirrorMode := None;
     entry_v2.AggregateGroupMode := None;
     entry_v2.LinkSpeed := LinkSpeed e;
     entry_v2.LinkDuplex := LinkDuplex e;
     entry_v2.LinkState := LinkState e;
     entry_v2.Comment := Comment e |}.

Definition identity_of `{U : Util} (o : normalizer)
  : string * string * string * string * string :=
  match o with
  | Obj_v1 o =>
    let a := container_v1.Answer o in
    (entry_v1.Name a, entry_v1.LinkSpeed a, entry_v1.LinkDuplex a,
     entry_v1.LinkState a, entry_v1.Comment a)
  | Obj_v2 o =>
    let a := container_v2.Answer o in
    (entry_v2.Name a, entry_v2.LinkSpeed a, entry_v2.LinkDuplex a,
     entry_v2.LinkState a, entry_v2.Comment a)
  end.

Definition identity_fields (e : Entry)
  : string * string * string * string * string :=
  (Name e, LinkSpeed e, LinkDuplex e, LinkState e, Comment e).

(** ** A reference implementation of the outside packages

    Used to run the package on concrete inputs. *)

(** Modelled from the spec: the bodies of [util.AsBool] and [util.YesNo] are
    not in this package; "boolean fields serialize as the literal strings
    yes/no", and the wire encodings are converted to native booleans. *)
Definition ref_AsBool (s : string) : bool := String.eqb s "yes".
Definition ref_YesNo (b : bool) : string := if b then "yes" else "no".

(** Modelled from the spec: the body of [util.CleanRawXml] is not in this
    package; "a clean step strips the enclosing wrapper tag before storage".
    A text that starts with a tag loses that tag and the last closing tag;
    any other text is left as it is. *)
Fixpoint drop_through (c : ascii) (s : list ascii) : list ascii :=
  match s with
  | [] => []
  | x :: r => if Ascii.eqb x c then r else drop_through c r
  end.

Definition ref_CleanRawXml (s : string) : string :=
  match list_ascii_of_string s with
  | x :: r =>
    if Ascii.eqb x "<"%char
    then string_of_list_ascii
           (rev (drop_through "<"%char (rev (drop_through ">"%char r))))
    else s
  | [] => s
  end.

(** Modelled from the spec: the body of [util.AsEntryXpath] is not in this
    package; the last path segment is "an entry-selector built from zero, one
    or many names". *)
Definition ref_AsEntryXpath (vals : slice string) : string :=
  match vals with
  | None | Some [] => "entry"
  | Some l =>
    "entry[" ++ String.concat " or " (map (fun v => "@name='" ++ v ++ "'") l) ++ "]"
  end.

(** Modelled from the spec: the comparison of package [version] is not in
    this package; "version >= 7.1.0" is read as the order on major, minor and
    patch numbers. *)
Definition version_geb (a b : Number) : bool :=
  if negb (Major a =? Major b)%Z then (Major b <? Major a)%Z
  else if negb (Minor a =? Minor b)%Z then (Minor b <? Minor a)%Z
  else (Patch b <=? Patch a)%Z.

(** Modelled from the spec: [util.Entry] and the bodies of [util.EntToStr]
    and [util.StrToEnt] are not in this package; the "wire address-list form"
    is taken to be the list of the addresses, a [nil] pointer standing for a
    [nil] slice. *)
#[export] Instance ref_util : Util := {|
  util_Entry := list string;
  AsBool := ref_AsBool;
  YesNo := ref_YesNo;
  EntToStr := fun e => e;
  StrToEnt := fun s => s;
  CleanRawXml := ref_CleanRawXml;
  AsEntryXpath := ref_AsEntryXpath;
  Gte := version_geb
|}.

(** Modelled from the spec: the body of [util.BulkElement.Config] is not in
    this package; a batch of one record is sent as that record's entry, a
    larger batch as "one bulk container". *)
#[export] Instance ref_config : BulkConfig (U := ref_util) := fun b =>
  match Data b with
  | [w] => Elem_wire w
  | _ => Elem_bulk b
  end.

(** A connection for concrete runs: it reports a fixed version and either
    accepts every request or refuses every request with the same error; a
    read leaves in the object what the device answered, if anything, also
    when it is refused. Other dynamic types of [Delete] arguments are
    represented by [int] values. *)
Record ref_conn : Type := mk_ref_conn {
  ref_version : Number;
  ref_refuses : bool;
  ref_answer : option (normalizer (U := ref_util))
}.

Definition ref_reply (d : ref_conn) : option (error Z) :=
  if ref_refuses d then Some (Err "request refused") else None.

#[export] Instance ref_client : XapiClient (U := ref_util) Z := {|
  conn := ref_conn;
  Versioning := ref_version;
  LogQuery := fun _ _ d => d;
  LogAction := fun _ _ d => d;
  con_Get := fun _ obj d => (default obj (ref_answer d), ref_reply d, d);
  con_Show := fun _ obj d => (default obj (ref_answer d), ref_reply d, d);
  con_Set := fun _ _ d => (ref_reply d, d);
  con_Edit := fun _ _ d => (ref_reply d, d);
  con_Delete := fun _ d => (ref_reply d, d);
  ImportInterfaces := fun _ _ d => (ref_reply d, d);
  UnimportInterfaces := fun _ _ d => (ref_reply d, d);
  EntryListUsing := fun _ _ d => (None, ref_reply d, d)
|}.

(** ** Round trips *)

Section RoundTrip.
Context `{U : Util}.

(** The wire entry a container holds, as a specify function would return
    it. *)
Definition original (o : normalizer) : wire :=
  match o with
  | Obj_v1 o => Wire_v1 (container_v1.Answer o)
  | Obj_v2 o => Wire_v2 (container_v2.Answer o)
  end.

(** [Normalize] returns a record and the specify function of the same schema
    turns that record into [w]. *)
Definition round_trip (o : normalizer) (w : wire) : Prop :=
  match o with
  | Obj_v1 o => exists e, container_v1_Normalize o = Done e /\ specify_v1 e = w
  | Obj_v2 o => exists e, container_v2_Normalize o = Done e /\ specify_v2 e = w
  end.

(** A fragment with its text cleaned. *)
Definition clean_raw (r : option RawXml) : option RawXml :=
  (fun r => mkRawXml (CleanRawXml (Text r))) <$> r.

Definition clean_l3Mode_v1 (i : l3Mode_v1.t) : l3Mode_v1.t :=
  l3Mode_v1.set_Ipv6
    (ipv6.set_Address (clean_raw (ipv6.Address (l3Mode_v1.Ipv6 i)))
       (l3Mode_v1.Ipv6 i))
    (l3Mode_v1.set_Subinterface (clean_raw (l3Mode_v1.Subinterface i))
       (l3Mode_v1.set_Arp (clean_raw (l3Mode_v1.Arp i)) i)).

Definition clean_l3Mode_v2 (i : l3Mode_v2.t) : l3Mode_v2.t :=
  l3Mode_v2.set_Ipv6
    (ipv6.set_Address (clean_raw (ipv6.Address (l3Mode_v2.Ipv6 i)))
       (l3Mode_v2.Ipv6 i))
    (l3Mode_v2.set_Subinterface (clean_raw (l3Mode_v2.Subinterface i))
       (l3Mode_v2.set_Arp (clean_raw (l3Mode_v2.Arp i)) i)).

Definition clean_otherMode (i : otherMode.t) : otherMode.t :=
  otherMode.set_Subinterface (clean_raw (otherMode.Subinterface i)) i.

(** The wire entry of a container with the text of every fragment of its
    [layer3] and [layer2] sub-objects replaced by the cleaned text. *)
Definition cleaned (o : normalizer) : wire :=
  match o with
  | Obj_v1 o =>
    let a := container_v1.Answer o in
    Wire_v1 (entry_v1.set_ModeL2 (clean_otherMode <$> entry_v1.ModeL2 a)
               (entry_v1.set_ModeL3 (clean_l3Mode_v1 <$> entry_v1.ModeL3 a) a))
  | Obj_v2 o =>
    let a := container_v2.Answer o in
    Wire_v2 (entry_v2.set_ModeL2 (clean_otherMode <$> entry_v2.ModeL2 a)
               (entry_v2.set_ModeL3 (clean_l3Mode_v2 <$> entry_v2.ModeL3 a) a))
  end.

(** A yes/no field holds the text that [YesNo] gives for the boolean that
    [AsBool] reads from it. *)
Definition yes_no_text (s : string) : Prop := YesNo (AsBool s) = s.

(** A [dhcp-client] block that specify writes back: its flags are yes/no
    texts and it is not at its defaults. *)
Definition canonical_dhcp (d : option dhcpSettings.t) : Prop :=
  match d with
  | None => True
  | Some d =>
    yes_no_text (dhcpSettings.Enable d) /\
    yes_no_text (dhcpSettings.CreateDefaultRoute d) /\
    (AsBool (dhcpSettings.Enable d) = true \/
     AsBool (dhcpSettings.CreateDefaultRoute d) = true \/
     dhcpSettings.Metric d <> 0%Z)
  end.

Definition canonical_layer2 (m : option otherMode.t) : Prop :=
  match m with
  | None => True
  | Some i => yes_no_text (otherMode.LldpEnabled i)
  end.

Definition canonical_vwire (m : option otherMode.t) : Prop :=
  match m with
  | None => True
  | Some i => yes_no_text (otherMode.LldpEnabled i) /\ otherMode.Subinterface i = None
  end.

Definition canonical_l3_v1 (m : option l3Mode_v1.t) : Prop :=
  match m with
  | None => True
  | Some i =>
    yes_no_text (ipv6.Enabled (l3Mode_v1.Ipv6 i)) /\
    yes_no_text (l3Mode_v1.AdjustTcpMss i) /\
    StrToEnt (EntToStr (l3Mode_v1.StaticIps i)) = l3Mode_v1.StaticIps i /\
    canonical_dhcp (l3Mode_v1.Dhcp i)
  end.

Definition canonical_l3_v2 (m : option l3Mode_v2.t) : Prop :=
  match m with
  | None => True
  | Some i =>
    yes_no_text (ipv6.Enabled (l3Mode_v2.Ipv6 i)) /\
    yes_no_text (l3Mode_v2.AdjustTcpMss i) /\
    StrToEnt (EntToStr (l3Mode_v2.StaticIps i)) = l3Mode_v2.StaticIps i /\
    canonical_dhcp (l3Mode_v2.Dhcp i)
  end.

(** A v1 container none of whose [layer3] and [layer2] sub-objects carries a
    fragment. *)
Definition fragment_free_v1 (a : entry_v1.t) : Prop :=
  match entry_v1.ModeL3 a with
  | None => True
  | Some i =>
    l3Mode_v1.Arp i = None /\ l3Mode_v1.Subinterface i = None /\
    ipv6.Address (l3Mode_v1.Ipv6 i) = None
  end /\
  match entry_v1.ModeL2 a with
  | None => True
  | Some i => otherMode.Subinterface i = None
  end.

(** The wire objects that the round trip gives back. *)
Definition canonical (o : normalizer) : Prop :=
  match o with
  | Obj_v1 o =>
    let a := container_v1.Answer o in
    canonical_l3_v1 (entry_v1.ModeL3 a) /\
    canonical_layer2 (entry_v1.ModeL2 a) /\
    canonical_vwire (entry_v1.ModeVwire a) /\
    fragment_free_v1 a
  | Obj_v2 o =>
    let a := container_v2.Answer o in
    canonical_l3_v2 (entry_v2.ModeL3 a) /\
    canonical_layer2 (entry_v2.ModeL2 a) /\
    canonical_vwire (entry_v2.ModeVwire a)
  end.

(** Whether the sub-object that [Normalize] reads carries a fragment. *)
Definition selected_has_fragment (o : normalizer) : bool :=
  match o with
  | Obj_v1 o =>
    let a := container_v1.Answer o in
    match entry_v1.ModeL3 a, entry_v1.ModeL2 a with
    | Some i, _ =>
      bool_decide (is_Some (l3Mode_v1.Arp i)) ||
      bool_decide (is_Some (l3Mode_v1.Subinterface i)) ||
      bool_decide (is_Some (ipv6.Address (l3Mode_v1.Ipv6 i)))
    | None, Some i => bool_decide (is_Some (otherMode.Subinterface i))
    | None, None => false
    end
  | Obj_v2 o =>
    let a := container_v2.Answer o in
    match entry_v2.ModeL3 a, entry_v2.ModeL2 a with
    | Some i, _ =>
      bool_decide (is_Some (l3Mode_v2.Arp i)) ||
      bool_decide (is_Some (l3Mode_v2.Subinterface i)) ||
      bool_decide (is_Some (ipv6.Address (l3Mode_v2.Ipv6 i)))
    | None, Some i => bool_decide (is_Some (otherMode.Subinterface i))
    | None, None => false
    end
  end.

Definition is_v1 (o : normalizer) : bool :=
  match o with
  | Obj_v1 _ => true
  | Obj_v2 _ => false
  end.

End RoundTrip.

(** ** Reading the calls of a run *)

Section Runs.
Context `{U : Util} {B : BulkConfig} {O : Type} {C : XapiClient O}.

Definition result_of {A : Type} (x : outcome A * conn * list call) : outcome A := x.1.1.
Definition calls_of {A : Type} (x : outcome A * conn * list call) : list call := x.2.

(** The write requests among the calls, each with its path and element. *)
Definition set_calls (t : list call) : list (list string * element) :=
  omap (fun c => match c with Call_Set p x => Some (p, x) | _ => None end) t.

(** The path of one named interface, the one [details] and [Edit] use. *)
Definition single_entry_path (name : string) : list string :=
  Eth_xpath (Some [name]).

(** The path of the collection of interfaces, the one [ShowList] and
    [GetList] use. *)
Definition collection_path : list string :=
  let path := Eth_xpath None in firstn (length path - 1) path.

(** The parent of the collection. *)
Definition interface_path : list string :=
  let path := Eth_xpath None in firstn (length path - 2) path.

(** The specify function [versioning] picks in a state. *)
Definition specify_for (d : conn) : Entry -> wire :=
  if Gte (Versioning d) (mkNumber 7 1 0 "") then specify_v2 else specify_v1.

(** The object [versioning] picks in a state. *)
Definition object_for (d : conn) : normalizer :=
  if Gte (Versioning d) (mkNumber 7 1 0 "")
  then Obj_v2 container_v2_zero
  else Obj_v1 container_v1_zero.

(** The element [Set] sends for a batch: the bulk element named [ethernet]
    that holds the specified records, through [Config]. *)
Definition Set_element (d : conn) (e : list Entry) : element :=
  Config {| XMLName := "ethernet"; Data := map (specify_for d) e |}.

(** The paths of the write requests among the calls. *)
Definition set_paths (t : list call) : list (list string) :=
  map fst (set_calls t).

(** The name [Delete] takes from a [string] or an [Entry]. *)
Definition name_of (v : any O) : option string :=
  match v with
  | AString s => Some s
  | AEntry e => Some (Name e)
  | AOther _ => None
  end.

End Runs.

(** ** Concrete inputs *)

(** An interface in layer3 mode with one static ARP entry, as a v1 and as a
    v2 wire object. *)
Definition arp_text : string :=
  "<entry name='10.0.0.5'><hw-address>00:11:22:33:44:55</hw-address></entry>".

Definition l3_arp_v1 `{U : Util} : container_v1.t :=
  {| container_v1.Answer :=
       {| entry_v1.Name := "ethernet1/1";
          entry_v1.ModeL2 := None;
          entry_v1.ModeL3 := Some
            {| l3Mode_v1.Ipv6 := {| ipv6.Enabled := "no"; ipv6.Address := None |};
               l3Mode_v1.ManagementProfile := "";
               l3Mode_v1.Mtu := 0;
               l3Mode_v1.NetflowProfile := "";
               l3Mode_v1.AdjustTcpMss := "no";
               l3Mode_v1.StaticIps := None;
               l3Mode_v1.Dhcp := None;
               l3Mode_v1.Arp := Some (mkRawXml arp_text);
               l3Mode_v1.Subinterface := None |};
          entry_v1.ModeVwire := None; entry_v1.TapMode := None;
          entry_v1.HaMode := None; entry_v1.DecryptMirrorMode := None;
          entry_v1.AggregateGroupMode := None;
          entry_v1.LinkSpeed := ""; entry_v1.LinkDuplex := "";
          entry_v1.LinkState := ""; entry_v1.Comment := "" |} |}.

Definition l3_arp_v2 `{U : Util} : container_v2.t :=
  {| container_v2.Answer :=
       {| entry_v2.Name := "ethernet1/1";
          entry_v2.ModeL3 := Some
            {| l3Mode_v2.Ipv6 := {| ipv6.Enabled := "no"; ipv6.Address := None |};
               l3Mode_v2.ManagementProfile := "";
               l3Mode_v2.Mtu := 0;
               l3Mode_v2.NetflowProfile := "";
               l3Mode_v2.AdjustTcpMss := "no";
               l3Mode_v2.Ipv4MssAdjust := 0;
               l3Mode_v2.Ipv6MssAdjust := 0;
               l3Mode_v2.StaticIps := None;
               l3Mode_v2.Dhcp := None;
               l3Mode_v2.Arp := Some (mkRawXml arp_text);
               l3Mode_v2.Subinterface := None |};
          entry_v2.ModeL2 := None;
          entry_v2.ModeVwire := None; entry_v2.TapMode := None;
          entry_v2.HaMode := None; entry_v2.DecryptMirrorMode := None;
          entry_v2.AggregateGroupMode := None;
          entry_v2.LinkSpeed := ""; entry_v2.LinkDuplex := "";
          entry_v2.LinkState := ""; entry_v2.Comment := "" |} |}.

(** A virtual-wire interface with a subinterface block. *)
Definition vwire_units_v2 `{U : Util} : container_v2.t :=
  {| container_v2.Answer :=
       {| entry_v2.Name := "ethernet1/2";
          entry_v2.ModeL3 := None;
          entry_v2.ModeL2 := None;
          entry_v2.ModeVwire := Some
            {| otherMode.LldpEnabled := "no";
               otherMode.LldpProfile := "";
               otherMode.NetflowProfile := "";
               otherMode.Subinterface :=
                 Some (mkRawXml "<entry name='ethernet1/2.1'><tag>7</tag></entry>") |};
          entry_v2.TapMode := None;
          entry_v2.HaMode := None; entry_v2.DecryptMirrorMode := None;
          entry_v2.AggregateGroupMode := None;
          entry_v2.LinkSpeed := ""; entry_v2.LinkDuplex := "";
          entry_v2.LinkState := ""; entry_v2.Comment := "" |} |}.

(** A tap interface with link settings and no sub-trees. *)
Definition tap_v1 `{U : Util} : container_v1.t :=
  {| container_v1.Answer :=
       {| entry_v1.Name := "ethernet1/3";
          entry_v1.ModeL2 := None; entry_v1.ModeL3 := None;
          entry_v1.ModeVwire := None; entry_v1.TapMode := Some mk_emptyMode;
          entry_v1.HaMode := None; entry_v1.DecryptMirrorMode := None;
          entry_v1.AggregateGroupMode := None;
          entry_v1.LinkSpeed := "auto"; entry_v1.LinkDuplex := "auto";
          entry_v1.LinkState := "up"; entry_v1.Comment := "span port" |} |}.

(** The record of the example scenario of the specification: layer3 with one
    static address and no DHCP. *)
Definition eth1 : Entry :=
  set_StaticIps (Some ["10.0.0.1/24"])
    (set_Mode "layer3"
       (mkEntry "ethernet1/1" "" None false false 0 false "" 0 false ""
          false "" "" "" "" "" "" 0 0 None)).

(** A layer3 record with both MSS adjustments set. *)
Definition eth2 : Entry :=
  set_Ipv6MssAdjust 60 (set_Ipv4MssAdjust 40 (set_AdjustTcpMss true
    (set_Mode "layer3"
       (mkEntry "ethernet1/2" "" None false false 0 false "" 0 false ""
          false "" "" "" "" "" "" 0 0 None)))).

(** A record whose mode is not one of the seven tags. *)
Definition eth3 : Entry :=
  set_Mode "loopback"
    (mkEntry "ethernet1/3" "" None false false 0 false "" 0 false ""
       false "" "auto" "full" "up" "" "uplink" 0 0 None).

(** A bare v2 object: a name and a comment, no mode sub-object. *)
Definition bare_object_v2 `{U : Util} : container_v2.t :=
  {| container_v2.Answer :=
       {| entry_v2.Name := "ethernet1/4";
          entry_v2.ModeL3 := None; entry_v2.ModeL2 := None;
          entry_v2.ModeVwire := None; entry_v2.TapMode := None;
          entry_v2.HaMode := None; entry_v2.DecryptMirrorMode := None;
          entry_v2.AggregateGroupMode := None;
          entry_v2.LinkSpeed := ""; entry_v2.LinkDuplex := "";
          entry_v2.LinkState := "down"; entry_v2.Comment := "unused" |} |}.

(** Connections for concrete runs: a device at version 8.0.0 that accepts
    every request, and a device at version 7.0.9 that refuses every request
    after leaving a layer3 interface with an ARP block in the object. *)
Definition accepting : ref_conn :=
  mk_ref_conn (mkNumber 8 0 0 "") false None.

Definition refusing : ref_conn :=
  mk_ref_conn (mkNumber 7 0 9 "") true (Some (Obj_v1 l3_arp_v1)).

(** A layer3 interface whose DHCP client block is present with both flags
    off and no metric. *)
Definition l3_dhcp_off_v2 `{U : Util} : container_v2.t :=
  {| container_v2.Answer :=
       {| entry_v2.Name := "ethernet1/5";
          entry_v2.ModeL3 := Some
            {| l3Mode_v2.Ipv6 := {| ipv6.Enabled := "no"; ipv6.Address := None |};
               l3Mode_v2.ManagementProfile := "";
               l3Mode_v2.Mtu := 0;
               l3Mode_v2.NetflowProfile := "";
               l3Mode_v2.AdjustTcpMss := "no";
               l3Mode_v2.Ipv4MssAdjust := 0;
               l3Mode_v2.Ipv6MssAdjust := 0;
               l3Mode_v2.StaticIps := None;
               l3Mode_v2.Dhcp := Some
                 {| dhcpSettings.Enable := "no";
                    dhcpSettings.CreateDefaultRoute := "no";
                    dhcpSettings.Metric := 0 |};
               l3Mode_v2.Arp := None;
               l3Mode_v2.Subinterface := None |};
          entry_v2.ModeL2 := None;
          entry_v2.ModeVwire := None; entry_v2.TapMode := None;
          entry_v2.HaMode := None; entry_v2.DecryptMirrorMode := None;
          entry_v2.AggregateGroupMode := None;
          entry_v2.LinkSpeed := ""; entry_v2.LinkDuplex := "";
          entry_v2.LinkState := ""; entry_v2.Comment := "" |} |}.

(** ** Writing and reading back *)

Section Composition.
Context `{U : Util}.

(** The container a read leaves when the device holds the entry [w]. *)
Definition container_of (w : wire) : normalizer :=
  match w with
  | Wire_v1 a => Obj_v1 {| container_v1.Answer := a |}
  | Wire_v2 a => Obj_v2 {| container_v2.Answer := a |}
  end.

(** The specify function of the schema of an object. *)
Definition specify_like (o : normalizer) : Entry -> wire :=
  match o with
  | Obj_v1 _ => specify_v1
  | Obj_v2 _ => specify_v2
  end.

(** The text [Normalize] stores for a block, when the block is present. *)
Definition block_text (r : option RawXml) : option string :=
  (fun r => CleanRawXml (Text r)) <$> r.

(** What the switch of [Normalize] stores under the key [k]: the blocks of
    the layer3 sub-object when there is one, else the block of the layer2
    sub-object when there is one, else nothing. *)
Definition fragment_at (o : normalizer) (k : string) : option string :=
  match o with
  | Obj_v1 o =>
    let a := container_v1.Answer o in
    match entry_v1.ModeL3 a, entry_v1.ModeL2 a with
    | Some i, _ =>
      if String.eqb k "arp" then block_text (l3Mode_v1.Arp i)
      else if String.eqb k "l3subinterface"
      then block_text (l3Mode_v1.Subinterface i)
      else if String.eqb k "ipv6"
      then block_text (ipv6.Address (l3Mode_v1.Ipv6 i))
      else None
    | None, Some i =>
      if String.eqb k "l2subinterface"
      then block_text (otherMode.Subinterface i)
      else None
    | None, None => None
    end
  | Obj_v2 o =>
    let a := container_v2.Answer o in
    match entry_v2.ModeL3 a, entry_v2.ModeL2 a with
    | Some i, _ =>
      if String.eqb k "arp" then block_text (l3Mode_v2.Arp i)
      else if String.eqb k "l3subinterface"
      then block_text (l3Mode_v2.Subinterface i)
      else if String.eqb k "ipv6"
      then block_text (ipv6.Address (l3Mode_v2.Ipv6 i))
      else None
    | None, Some i =>
      if String.eqb k "l2subinterface"
      then block_text (otherMode.Subinterface i)
      else None
    | None, None => None
    end
  end.

(** The texts of the blocks that the switch of [Normalize] reads. *)
Definition texts_of (rs : list (option RawXml)) : list string :=
  omap (fun r => Text <$> r) rs.

Definition fragment_texts (o : normalizer) : list string :=
  match o with
  | Obj_v1 o =>
    let a := container_v1.Answer o in
    match entry_v1.ModeL3 a, entry_v1.ModeL2 a with
    | Some i, _ =>
      texts_of [l3Mode_v1.Arp i; l3Mode_v1.Subinterface i;
                ipv6.Address (l3Mode_v1.Ipv6 i)]
    | None, Some i => texts_of [otherMode.Subinterface i]
    | None, None => []
    end
  | Obj_v2 o =>
    let a := container_v2.Answer o in
    match entry_v2.ModeL3 a, entry_v2.ModeL2 a with
    | Some i, _ =>
      texts_of [l3Mode_v2.Arp i; l3Mode_v2.Subinterface i;
                ipv6.Address (l3Mode_v2.Ipv6 i)]
    | None, Some i => texts_of [otherMode.Subinterface i]
    | None, None => []
    end
  end.

(** [y], unless [x] is present. *)
Definition unless {A B : Type} (x : option A) (y : option B) : option B :=
  match x with
  | Some _ => None
  | None => y
  end.

(** The object with every mode sub-object removed but the first present one
    in the order of the switch of [Normalize]. *)
Definition only_selected (o : normalizer) : normalizer :=
  match o with
  | Obj_v1 o =>
    let a := container_v1.Answer o in
    let l3 := entry_v1.ModeL3 a in
    let l2 := unless l3 (entry_v1.ModeL2 a) in
    let vw := unless l3 (unless l2 (entry_v1.ModeVwire a)) in
    let tap := unless l3 (unless l2 (unless vw (entry_v1.TapMode a))) in
    let ha := unless l3 (unless l2 (unless vw (unless tap (entry_v1.HaMode a)))) in
    let dm := unless l3 (unless l2 (unless vw (unless tap (unless ha
                (entry_v1.DecryptMirrorMode a))))) in
    let ag := unless l3 (unless l2 (unless vw (unless tap (unless ha (unless dm
                (entry_v1.AggregateGroupMode a)))))) in
    Obj_v1 {| container_v1.Answer :=
      {| entry_v1.Name := entry_v1.Name a;
         entry_v1.ModeL2 := l2; entry_v1.ModeL3 := l3;
         entry_v1.ModeVwire := vw; entry_v1.TapMode := tap;
         entry_v1.HaMode := ha; entry_v1.DecryptMirrorMode := dm;
         entry_v1.AggregateGroupMode := ag;
         entry_v1.LinkSpeed := entry_v1.LinkSpeed a;
         entry_v1.LinkDuplex := entry_v1.LinkDuplex a;
         entry_v1.LinkState := entry_v1.LinkState a;
         entry_v1.Comment := entry_v1.Comment a |} |}
  | Obj_v2 o =>
    let a := container_v2.Answer o in
    let l3 := entry_v2.ModeL3 a in
    let l2 := unless l3 (entry_v2.ModeL2 a) in
    let vw := unless l3 (unless l2 (entry_v2.ModeVwire a)) in
    let tap := unless l3 (unless l2 (unless vw (entry_v2.TapMode a))) in
    let ha := unless l3 (unless l2 (unless vw (unless tap (entry_v2.HaMode a)))) in
    let dm := unless l3 (unless l2 (unless vw (unless tap (unless ha
                (entry_v2.DecryptMirrorMode a))))) in
    let ag := unless l3 (unless l2 (unless vw (unless tap (unless ha (unless dm
                (entry_v2.AggregateGroupMode a)))))) in
    Obj_v2 {| container_v2.Answer :=
      {| entry_v2.Name := entry_v2.Name a;
         entry_v2.ModeL3 := l3; entry_v2.ModeL2 := l2;
         entry_v2.ModeVwire := vw; entry_v2.TapMode := tap;
         entry_v2.HaMode := ha; entry_v2.DecryptMirrorMode := dm;
         entry_v2.AggregateGroupMode := ag;
         entry_v2.LinkSpeed := entry_v2.LinkSpeed a;
         entry_v2.LinkDuplex := entry_v2.LinkDuplex a;
         entry_v2.LinkState := entry_v2.LinkState a;
         entry_v2.Comment := entry_v2.Comment a |} |}
  end.

End Composition.

(** Two records that agree on what a specify function reads: the mode, the
    identity and link fields, and the fields and fragments of that mode. *)
Definition same_layer3 (e e' : Entry) : Prop :=
  StaticIps e = StaticIps e' /\ EnableDhcp e = EnableDhcp e' /\
  CreateDhcpDefaultRoute e = CreateDhcpDefaultRoute e' /\
  DhcpDefaultRouteMetric e = DhcpDefaultRouteMetric e' /\
  Ipv6Enabled e = Ipv6Enabled e' /\
  ManagementProfile e = ManagementProfile e' /\ Mtu e = Mtu e' /\
  AdjustTcpMss e = AdjustTcpMss e' /\ NetflowProfile e = NetflowProfile e' /\
  Ipv4MssAdjust e = Ipv4MssAdjust e' /\ Ipv6MssAdjust e = Ipv6MssAdjust e' /\
  map_index (raw e) "arp" = map_index (raw e') "arp" /\
  map_index (raw e) "l3subinterface" = map_index (raw e') "l3subinterface" /\
  map_index (raw e) "ipv6" = map_index (raw e') "ipv6".

Definition same_lldp (e e' : Entry) : Prop :=
  LldpEnabled e = LldpEnabled e' /\ LldpProfile e = LldpProfile e' /\
  NetflowProfile e = NetflowProfile e'.

Definition same_for_specify (e e' : Entry) : Prop :=
  Mode e = Mode e' /\ identity_fields e = identity_fields e' /\
  (Mode e = "layer3" -> same_layer3 e e') /\
  (Mode e = "layer2" \/ Mode e = "virtual-wire" -> same_lldp e e') /\
  (Mode e = "layer2" ->
   map_index (raw e) "l2subinterface" = map_index (raw e') "l2subinterface").

(** ** The calls of an operation *)

Section Operations.
Context `{U : Util} {B : BulkConfig} {O : Type} {C : XapiClient O}.

(** The operations of the namespace, with their arguments. *)
Inductive operation : Type :=
| Op_ShowList
| Op_GetList
| Op_Get (name : string)
| Op_Show (name : string)
| Op_Set (vsys : string) (e : list Entry)
| Op_Edit (vsys : string) (e : Entry)
| Op_Delete (vsys : string) (e : list (any O)).

(** The calls an operation makes on the connection from the state [d]. *)
Definition op_calls (op : operation) (d : conn) : list call :=
  match op with
  | Op_ShowList => calls_of (Eth_ShowList d)
  | Op_GetList => calls_of (Eth_GetList d)
  | Op_Get name => calls_of (Eth_Get name d)
  | Op_Show name => calls_of (Eth_Show name d)
  | Op_Set vsys e => calls_of (Eth_Set vsys e d)
  | Op_Edit vsys e => calls_of (Eth_Edit vsys e d)
  | Op_Delete vsys e => calls_of (Eth_Delete vsys e d)
  end.

(** The path a call carries, for the calls that carry one. *)
Definition call_path (c : call) : option (list string) :=
  match c with
  | Call_EntryListUsing _ p => Some p
  | Call_Get p _ => Some p
  | Call_Show p _ => Some p
  | Call_Set p _ => Some p
  | Call_Edit p _ => Some p
  | Call_Delete p => Some p
  | _ => None
  end.

(** The number of version queries among the calls. *)
Fixpoint count_versioning (t : list call) : nat :=
  match t with
  | [] => 0
  | Call_Versioning :: t => S (count_versioning t)
  | _ :: t => count_versioning t
  end.

End Operations.

(** Inputs for concrete runs: a layer2 record that also carries stale layer3
    values and an aggregate group, the same record without them, a v2 wire
    object with a layer3 and a tap sub-object, and a layer3 interface whose
    ARP block is a plain text. *)
Definition eth4 : Entry :=
  mkEntry "ethernet1/4" "layer2" None false false 0 false "" 0 false "nf1"
    true "lldp1" "auto" "auto" "up" "" "access" 0 0 None.

Definition eth4_stale : Entry :=
  mkEntry "ethernet1/4" "layer2" (Some ["10.0.0.9/24"]) true false 5 true
    "mgmt" 1400 true "nf1" true "lldp1" "auto" "auto" "up" "ae1" "access" 40
    60 None.

Definition l3_and_tap_v2 `{U : Util} : container_v2.t :=
  {| container_v2.Answer :=
       entry_v2.set_TapMode (Some mk_emptyMode)
         (container_v2.Answer l3_arp_v2) |}.

Definition l3_plain_arp_v2 `{U : Util} : container_v2.t :=
  {| container_v2.Answer :=
       {| entry_v2.Name := "ethernet1/6";
          entry_v2.ModeL3 := Some
            {| l3Mode_v2.Ipv6 := {| ipv6.Enabled := "yes"; ipv6.Address := None |};
               l3Mode_v2.ManagementProfile := "mgmt";
               l3Mode_v2.Mtu := 1400;
               l3Mode_v2.NetflowProfile := "";
               l3Mode_v2.AdjustTcpMss := "yes";
               l3Mode_v2.Ipv4MssAdjust := 40;
               l3Mode_v2.Ipv6MssAdjust := 60;
               l3Mode_v2.StaticIps := None;
               l3Mode_v2.Dhcp := Some
                 {| dhcpSettings.Enable := "yes";
                    dhcpSettings.CreateDefaultRoute := "";
                    dhcpSettings.Metric := 10 |};
               l3Mode_v2.Arp := Some (mkRawXml "10.0.0.5 00:11:22:33:44:55");
               l3Mode_v2.Subinterface := None |};
          entry_v2.ModeL2 := None;
          entry_v2.ModeVwire := None; entry_v2.TapMode := None;
          entry_v2.HaMode := None; entry_v2.DecryptMirrorMode := None;
          entry_v2.AggregateGroupMode := None;
          entry_v2.LinkSpeed := ""; entry_v2.LinkDuplex := "";
          entry_v2.LinkState := ""; entry_v2.Comment := "" |} |}.

(** The mode a write keeps: the mode itself when it is one of the seven
    tags, the empty string otherwise. *)
Definition known_mode (m : string) : string :=
  if existsb (String.eqb m) mode_tags then m else "".

(** The record with the identity and link fields of [e], the mode [m], the
    fragments map [r] and every other field at its zero value. *)
Definition identity_record (e : Entry) (m : string)
    (r : option (gmap string string)) : Entry :=
  {| Name := Name e; Mode := m; StaticIps := None;
     EnableDhcp := false; CreateDhcpDefaultRoute := false;
     DhcpDefaultRouteMetric := 0; Ipv6Enabled := false;
     ManagementProfile := ""; Mtu := 0; AdjustTcpMss := false;
     NetflowProfile := ""; LldpEnabled := false; LldpProfile := "";
     LinkSpeed := LinkSpeed e; LinkDuplex := LinkDuplex e;
     LinkState := LinkState e; AggregateGroup := "";
     Comment := Comment e; Ipv4MssAdjust := 0; Ipv6MssAdjust := 0;
     raw := r |}.

(** A tap record that also carries a netflow profile and an aggregate
    group. *)
Definition eth5 : Entry :=
  mkEntry "ethernet1/5" "tap" None false false 0 false "" 0 false "nf1"
    false "" "auto" "auto" "up" "ae1" "span" 0 0 None.

(** * Properties *)

(** ** Fragments *)

Lemma map_index_store (m : gmap string string) (k v : string) :
  map_index (Some (<[k:=v]> m)) k = Some v.
Proof. unfold map_index. apply lookup_insert_eq. Qed.

Lemma map_index_store_ne (m : gmap string string) (k k' v : string) :
  k <> k' -> map_index (Some (<[k:=v]> m)) k' = map_index (Some m) k'.
Proof. intros Hne. unfold map_index. by apply lookup_insert_ne. Qed.

Lemma map_index_empty (k : string) : map_index (Some ∅) k = None.
Proof. unfold map_index. apply lookup_empty. Qed.

(** The example scenario of the specification: a layer3 record with one
    static address and no DHCP gives a layer3 sub-object with that address,
    no [dhcp-client] block and [adjust-tcp-mss] at [no]. *)
Example specify_v2_example_scenario :
  specify_v2 (U := ref_util) eth1 =
  Wire_v2
    (entry_v2.set_ModeL3
       (Some {| l3Mode_v2.Ipv6 := {| ipv6.Enabled := "no"; ipv6.Address := None |};
                l3Mode_v2.ManagementProfile := "";
                l3Mode_v2.Mtu := 0;
                l3Mode_v2.NetflowProfile := "";
                l3Mode_v2.AdjustTcpMss := "no";
                l3Mode_v2.Ipv4MssAdjust := 0;
                l3Mode_v2.Ipv6MssAdjust := 0;
                l3Mode_v2.StaticIps := Some ["10.0.0.1/24"];
                l3Mode_v2.Dhcp := None;
                l3Mode_v2.Arp := None;
                l3Mode_v2.Subinterface := None |})
       (bare_v2 eth1)).
Proof. reflexivity. Qed.

(** A whole run of [Set] with that record on a device at version 8.0.0: the
    version query, the log entry, the write and the import. *)
Example Eth_Set_example_run :
  Eth_Set (C := ref_client) "vsys1" [eth1] accepting =
  (Done None, accepting,
   [Call_Versioning;
    Call_LogAction "(set) ethernet interfaces: %v" ["ethernet1/1"];
    Call_Set ["config"; "devices"; "entry[@name='localhost.localdomain']";
              "network"; "interface"; "ethernet"]
      (Elem_wire (specify_v2 eth1));
    Call_ImportInterfaces "vsys1" (Some ["ethernet1/1"])]).
Proof. reflexivity. Qed.

(** C2. A v1 wire object in layer3 mode with an ARP block makes the v1
    [Normalize] panic on the write to its [nil] fragments map, so no record
    is returned; the same interface as a v2 wire object is normalized to a
    record whose fragments map holds the cleaned ARP text under the key
    [arp]. *)
Theorem Normalize_v1_arp_panics `{U : Util} :
  container_v1_Normalize l3_arp_v1 = Panic "assignment to entry in nil map" /\
  exists ans, container_v2_Normalize l3_arp_v2 = Done ans /\
              map_index (raw ans) "arp" = Some (CleanRawXml arp_text).
Proof.
  split; [reflexivity|].
  eexists. split; [reflexivity|].
  cbn [raw set_raw]. apply map_index_store.
Qed.

(** ** Mode selection *)

(** The v1 [Normalize] panics exactly on the objects whose selected
    sub-object carries a fragment. *)
Lemma Normalize_v1_panic_iff `{U : Util} (o : container_v1.t) :
  (exists msg, container_v1_Normalize o = Panic msg) <->
  selected_has_fragment (Obj_v1 o) = true.
Proof.
  destruct o as [a]; destruct a as [? m1 m2 m3 m4 m5 m6 m7 ? ? ? ?].
  destruct m2 as [l3|]; [|destruct m1 as [l2|]].
  - destruct l3 as [[? []] ? ? ? ? ? [] [] []]; cbn;
      (split; [intros [msg H]; try discriminate H; reflexivity
              | intros H; try discriminate H; eauto]).
  - destruct l2 as [? ? ? []]; cbn;
      (split; [intros [msg H]; try discriminate H; reflexivity
              | intros H; try discriminate H; eauto]).
  - destruct m3, m4, m5, m6, m7; cbn;
      (split; [intros [msg H]; discriminate H | intros H; discriminate H]).
Qed.

(** The v2 [Normalize] always returns a record. *)
Lemma Normalize_v2_total `{U : Util} (o : container_v2.t) :
  exists ans, container_v2_Normalize o = Done ans.
Proof.
  destruct o as [a]; destruct a as [? m1 m2 m3 m4 m5 m6 m7 ? ? ? ?].
  destruct m1 as [l3|]; [|destruct m2 as [l2|]].
  - destruct l3 as [[? []] ? ? ? ? ? ? ? [] [] []]; cbn -[insert empty]; eauto.
  - destruct l2 as [? ? ? []]; cbn -[insert empty]; eauto.
  - destruct m3, m4, m5, m6, m7; cbn -[insert empty]; eauto.
Qed.

Ltac fields_zero :=
  cbn;
  repeat match goal with
         | |- _ /\ _ => split
         | |- _ -> _ => intros ?
         | |- _ => reflexivity
         | |- _ => congruence
         | |- map_index (Some ∅) _ = None => apply map_index_empty
         | |- map_index (Some (<[_:=_]> _)) _ = None =>
           rewrite map_index_store_ne by discriminate
         end.

(** C8. Whenever [Normalize] returns a record, its mode is the first one
    present in the order layer3, layer2, virtual-wire, tap, ha,
    decrypt-mirror, aggregate-group, its identity and link fields are those
    of the wire object, and the fields of every other mode are at their zero
    values: the layer3 fields and fragments unless the mode is layer3, the
    LLDP fields unless it is layer2 or virtual-wire, the layer2 fragment
    unless it is layer2, the netflow profile unless it is one of these three;
    [AggregateGroup] is never set. The v2 [Normalize] always returns; the only
    runs that return no record are the v1 runs whose selected sub-object
    carries a fragment. *)
Theorem Normalize_mode_exclusive `{U : Util} (o : normalizer) :
  match Normalize o with
  | Done ans =>
    Mode ans = selected o /\
    identity_fields ans = identity_of o /\
    (Mode ans <> "layer3" -> layer3_fields_zero ans) /\
    (Mode ans <> "layer2" -> Mode ans <> "virtual-wire" -> lldp_fields_zero ans) /\
    (Mode ans <> "layer2" -> map_index (raw ans) "l2subinterface" = None) /\
    (Mode ans <> "layer3" -> Mode ans <> "layer2" ->
     Mode ans <> "virtual-wire" -> NetflowProfile ans = "") /\
    AggregateGroup ans = ""
  | Panic _ => is_v1 o = true /\ selected_has_fragment o = true
  end.
Proof.
  destruct o as [[a]|[a]]; destruct a as [? m1 m2 m3 m4 m5 m6 m7 ? ? ? ?].
  - (* schema v1: m2 is layer3, m1 is layer2 *)
    destruct m2 as [[[? []] ? ? ? ? ? [] [] []]|]; cbn;
      unfold layer3_fields_zero, lldp_fields_zero; fields_zero.
    destruct m1 as [[? ? ? []]|]; cbn;
      unfold layer3_fields_zero, lldp_fields_zero; fields_zero.
    destruct m3, m4, m5, m6, m7; cbn;
      unfold layer3_fields_zero, lldp_fields_zero; fields_zero.
  - (* schema v2: m1 is layer3, m2 is layer2 *)
    destruct m1 as [[[? []] ? ? ? ? ? ? ? [] [] []]|]; cbn;
      unfold layer3_fields_zero, lldp_fields_zero; fields_zero.
    destruct m2 as [[? ? ? []]|]; cbn;
      unfold layer3_fields_zero, lldp_fields_zero; fields_zero.
    destruct m3, m4, m5, m6, m7; cbn;
      unfold layer3_fields_zero, lldp_fields_zero; fields_zero.
Qed.

(** Two v1 objects: one that is normalized, with the fields checked, and
    one on which no record is returned. *)
Example Normalize_mode_exclusive_runs :
  (exists ans, container_v1_Normalize (U := ref_util) tap_v1 = Done ans /\
               Mode ans = "tap" /\ Name ans = "ethernet1/3" /\
               LinkState ans = "up" /\ layer3_fields_zero ans) /\
  selected_has_fragment (U := ref_util) (Obj_v1 l3_arp_v1) = true.
Proof.
  split; [|reflexivity].
  eexists; split; [reflexivity|].
  cbn. unfold layer3_fields_zero. cbn. repeat split.
Qed.

Lemma eqb_tag_false (s t : string) : s <> t -> String.eqb s t = false.
Proof. intros H. by apply String.eqb_neq. Qed.

(** C9. A wire object with no mode sub-object is normalized, by either
    schema, to a record with the empty mode, the identity and link fields of
    the object and every mode-specific field at its zero value; and a record
    whose mode is none of the seven tags is specified, by either schema, as
    the entry that carries its name, link speed, link duplex, link state and
    comment and no mode sub-object. *)
Theorem absent_and_unknown_modes_tolerated `{U : Util}
    (o : normalizer) (e : Entry) :
  count_present (present o) = 0 ->
  (forall t, In t mode_tags -> Mode e <> t) ->
  (exists ans,
     Normalize o = Done ans /\ Mode ans = "" /\
     identity_fields ans = identity_of o /\
     layer3_fields_zero ans /\ lldp_fields_zero ans /\ no_fragments ans /\
     NetflowProfile ans = "" /\ AggregateGroup ans = "") /\
  specify_v1 e = Wire_v1 (bare_v1 e) /\
  specify_v2 e = Wire_v2 (bare_v2 e).
Proof.
  intros Hnone Htags. split.
  - destruct o as [[a]|[a]]; destruct a as [? m1 m2 m3 m4 m5 m6 m7 ? ? ? ?];
      destruct m1, m2, m3, m4, m5, m6, m7; try discriminate Hnone;
      (eexists; split; [reflexivity|]); cbn;
      unfold no_fragments, layer3_fields_zero, lldp_fields_zero; fields_zero;
      intros k; cbn; apply lookup_empty.
  - assert (H1 : String.eqb (Mode e) "layer3" = false)
      by (apply eqb_tag_false, Htags; cbn; tauto).
    assert (H2 : String.eqb (Mode e) "layer2" = false)
      by (apply eqb_tag_false, Htags; cbn; tauto).
    assert (H3 : String.eqb (Mode e) "virtual-wire" = false)
      by (apply eqb_tag_false, Htags; cbn; tauto).
    assert (H4 : String.eqb (Mode e) "tap" = false)
      by (apply eqb_tag_false, Htags; cbn; tauto).
    assert (H5 : String.eqb (Mode e) "ha" = false)
      by (apply eqb_tag_false, Htags; cbn; tauto).
    assert (H6 : String.eqb (Mode e) "decrypt-mirror" = false)
      by (apply eqb_tag_false, Htags; cbn; tauto).
    assert (H7 : String.eqb (Mode e) "aggregate-group" = false)
      by (apply eqb_tag_false, Htags; cbn; tauto).
    unfold specify_v1, specify_v2.
    rewrite H1, H2, H3, H4, H5, H6, H7. split; reflexivity.
Qed.

Lemma absent_and_unknown_modes_witness :
  count_present (present (U := ref_util) (Obj_v2 bare_object_v2)) = 0 /\
  (forall t, In t mode_tags -> Mode eth3 <> t) /\
  (exists ans,
     Normalize (U := ref_util) (Obj_v2 bare_object_v2) = Done ans /\
     Mode ans = "" /\ Name ans = "ethernet1/4") /\
  specify_v1 (U := ref_util) eth3 = Wire_v1 (bare_v1 eth3).
Proof.
  assert (Hp : count_present (present (U := ref_util) (Obj_v2 bare_object_v2)) = 0)
    by reflexivity.
  assert (Ht : forall t, In t mode_tags -> Mode eth3 <> t).
  { intros t Hin. cbn in Hin.
    repeat (destruct Hin as [<-|Hin]; [discriminate|]). destruct Hin. }
  split; [exact Hp|]. split; [exact Ht|].
  destruct (absent_and_unknown_modes_tolerated
              (U := ref_util) (Obj_v2 bare_object_v2) eth3 Hp Ht)
    as [[ans (Hn & Hm & Hid & _)] [Hs1 _]].
  split; [|exact Hs1].
  exists ans. split; [exact Hn|]. split; [exact Hm|].
  unfold identity_fields in Hid. cbn in Hid. congruence.
Defined.

(** ** The DHCP block *)

Lemma wants_dhcp_iff (e : Entry) :
  wants_dhcp e = true <->
  EnableDhcp e = true \/ CreateDhcpDefaultRoute e = true \/
  DhcpDefaultRouteMetric e <> 0%Z.
Proof.
  unfold wants_dhcp.
  rewrite !orb_true_iff, negb_true_iff, Z.eqb_neq. tauto.
Qed.

Lemma specify_v1_layer3_dhcp `{U : Util} (e : Entry) :
  Mode e = "layer3" ->
  wire_has_layer3 (specify_v1 e) = true /\
  wire_dhcp (specify_v1 e) =
    if wants_dhcp e then Some (new_dhcpSettings e) else None.
Proof.
  intros Hm. unfold specify_v1. rewrite Hm. cbn [String.eqb Ascii.eqb Bool.eqb].
  cbn -[wants_dhcp new_dhcpSettings map_index].
  destruct (wants_dhcp e), (map_index (raw e) "arp"),
    (map_index (raw e) "l3subinterface"), (map_index (raw e) "ipv6");
    split; reflexivity.
Qed.

Lemma specify_v2_layer3_dhcp `{U : Util} (e : Entry) :
  Mode e = "layer3" ->
  wire_has_layer3 (specify_v2 e) = true /\
  wire_dhcp (specify_v2 e) =
    if wants_dhcp e then Some (new_dhcpSettings e) else None.
Proof.
  intros Hm. unfold specify_v2. rewrite Hm. cbn [String.eqb Ascii.eqb Bool.eqb].
  cbn -[wants_dhcp new_dhcpSettings map_index].
  destruct (wants_dhcp e), (map_index (raw e) "arp"),
    (map_index (raw e) "l3subinterface"), (map_index (raw e) "ipv6");
    split; reflexivity.
Qed.

(** C4. For a record in layer3 mode, both specify functions emit a layer3
    sub-object, and that sub-object has a [dhcp-client] block if and only if
    [EnableDhcp] is true, or [CreateDhcpDefaultRoute] is true, or
    [DhcpDefaultRouteMetric] is not zero; the block then carries these three
    values, and when all three are false or zero there is no such block. *)
Theorem specify_dhcp_iff `{U : Util} (e : Entry) :
  Mode e = "layer3" ->
  (wire_has_layer3 (specify_v1 e) = true /\
   wire_has_layer3 (specify_v2 e) = true) /\
  (is_Some (wire_dhcp (specify_v1 e)) <->
   EnableDhcp e = true \/ CreateDhcpDefaultRoute e = true \/
   DhcpDefaultRouteMetric e <> 0%Z) /\
  (is_Some (wire_dhcp (specify_v2 e)) <->
   EnableDhcp e = true \/ CreateDhcpDefaultRoute e = true \/
   DhcpDefaultRouteMetric e <> 0%Z) /\
  (forall d, wire_dhcp (specify_v1 e) = Some d \/ wire_dhcp (specify_v2 e) = Some d ->
             d = new_dhcpSettings e) /\
  (EnableDhcp e = false -> CreateDhcpDefaultRoute e = false ->
   DhcpDefaultRouteMetric e = 0%Z ->
   wire_dhcp (specify_v1 e) = None /\ wire_dhcp (specify_v2 e) = None).
Proof.
  intros Hm.
  destruct (specify_v1_layer3_dhcp e Hm) as [Hl1 Hd1].
  destruct (specify_v2_layer3_dhcp e Hm) as [Hl2 Hd2].
  rewrite Hd1, Hd2, <- wants_dhcp_iff.
  split; [split; assumption|].
  assert (Hz : EnableDhcp e = false -> CreateDhcpDefaultRoute e = false ->
               DhcpDefaultRouteMetric e = 0%Z -> wants_dhcp e = false).
  { intros E1 E2 E3. unfold wants_dhcp. rewrite E1, E2, E3. reflexivity. }
  destruct (wants_dhcp e) eqn:Hw.
  - split; [split; [intros _; reflexivity | intros _; eexists; reflexivity]|].
    split; [split; [intros _; reflexivity | intros _; eexists; reflexivity]|].
    split; [intros d [Hd|Hd]; congruence|].
    intros E1 E2 E3. specialize (Hz E1 E2 E3). discriminate Hz.
  - split; [split; [intros [? ?]; discriminate | discriminate]|].
    split; [split; [intros [? ?]; discriminate | discriminate]|].
    split; [intros d [Hd|Hd]; discriminate|].
    intros _ _ _. split; reflexivity.
Qed.

(** The example scenario: one static address, no DHCP. *)
Lemma specify_dhcp_iff_witness :
  Mode eth1 = "layer3" /\
  wire_dhcp (specify_v1 (U := ref_util) eth1) = None /\
  wire_dhcp (specify_v2 (U := ref_util) eth1) = None.
Proof.
  split; [reflexivity|].
  apply (specify_dhcp_iff (U := ref_util) eth1 eq_refl); reflexivity.
Defined.

(** ** Version dispatch *)

Lemma Eth_versioning_run `{U : Util} {O : Type} {C : XapiClient O} (d : conn) :
  Eth_versioning d =
  (Done (if Gte (Versioning d) (mkNumber 7 1 0 "")
         then (Obj_v2 container_v2_zero, specify_v2)
         else (Obj_v1 container_v1_zero, specify_v1)),
   d, [Call_Versioning]).
Proof.
  unfold Eth_versioning, mbind, M_bind, do_Versioning, mret, M_ret.
  destruct (Gte (Versioning d) (mkNumber 7 1 0 "")); reflexivity.
Qed.

(** C3. With [Gte] the order on major, minor and patch numbers,
    [versioning] returns the v2 pair ([container_v2], [specify_v2]) when the
    version the connection reports is at least 7.1.0 and the v1 pair
    ([container_v1], [specify_v1]) otherwise; so 7.0.9 gives v1, 7.1.0 and
    8.0.0 give v2. What [specify_v1] returns has no MSS adjustment elements;
    what [specify_v2] returns for a layer3 record has each of the two whose
    value is not zero. *)
Theorem versioning_dispatch `{U : Util} {O : Type} {C : XapiClient O}
    (d : conn) (e : Entry) :
  (forall a b, Gte a b = version_geb a b) ->
  Mode e = "layer3" ->
  (version_geb (Versioning d) (mkNumber 7 1 0 "") = true ->
   Eth_versioning d =
   (Done (Obj_v2 container_v2_zero, specify_v2), d, [Call_Versioning])) /\
  (version_geb (Versioning d) (mkNumber 7 1 0 "") = false ->
   Eth_versioning d =
   (Done (Obj_v1 container_v1_zero, specify_v1), d, [Call_Versioning])) /\
  (forall s, Versioning d = mkNumber 7 0 9 s ->
             result_of (Eth_versioning d) = Done (Obj_v1 container_v1_zero, specify_v1)) /\
  (forall s, Versioning d = mkNumber 7 1 0 s ->
             result_of (Eth_versioning d) = Done (Obj_v2 container_v2_zero, specify_v2)) /\
  (forall s, Versioning d = mkNumber 8 0 0 s ->
             result_of (Eth_versioning d) = Done (Obj_v2 container_v2_zero, specify_v2)) /\
  wire_mss (specify_v1 e) = (None, None) /\
  wire_mss (specify_v2 e) =
    (omitempty (Ipv4MssAdjust e), omitempty (Ipv6MssAdjust e)).
Proof.
  intros HGte Hm. rewrite Eth_versioning_run, HGte.
  split; [intros ->; reflexivity|].
  split; [intros ->; reflexivity|].
  split; [intros s ->; reflexivity|].
  split; [intros s ->; reflexivity|].
  split; [intros s ->; reflexivity|].
  split.
  - unfold specify_v1.
    repeat match goal with
           | |- context [if ?b then _ else _] => destruct b
           end; reflexivity.
  - unfold specify_v2. rewrite Hm. cbn [String.eqb Ascii.eqb Bool.eqb].
    cbn -[wants_dhcp new_dhcpSettings map_index omitempty].
    destruct (wants_dhcp e), (map_index (raw e) "arp"),
      (map_index (raw e) "l3subinterface"), (map_index (raw e) "ipv6");
      reflexivity.
Qed.

(** The three versions of the specification, on a connection that reports
    them, with a layer3 record whose MSS adjustments are 40 and 60. *)
Lemma versioning_dispatch_witness :
  (result_of (Eth_versioning (C := ref_client) (mk_ref_conn (mkNumber 7 0 9 "") false None))
   = Done (Obj_v1 container_v1_zero, specify_v1)) /\
  (result_of (Eth_versioning (C := ref_client) (mk_ref_conn (mkNumber 7 1 0 "") false None))
   = Done (Obj_v2 container_v2_zero, specify_v2)) /\
  (result_of (Eth_versioning (C := ref_client) (mk_ref_conn (mkNumber 8 0 0 "") false None))
   = Done (Obj_v2 container_v2_zero, specify_v2)) /\
  wire_mss (specify_v1 (U := ref_util) eth2) = (None, None) /\
  wire_mss (specify_v2 (U := ref_util) eth2) = (Some 40%Z, Some 60%Z).
Proof.
  pose proof (versioning_dispatch (C := ref_client)
                (mk_ref_conn (mkNumber 7 0 9 "") false None) eth2
                (fun a b => eq_refl) eq_refl) as (_ & _ & H709 & _ & _ & Hv1 & Hv2).
  pose proof (versioning_dispatch (C := ref_client)
                (mk_ref_conn (mkNumber 7 1 0 "") false None) eth2
                (fun a b => eq_refl) eq_refl) as (_ & _ & _ & H710 & _).
  pose proof (versioning_dispatch (C := ref_client)
                (mk_ref_conn (mkNumber 8 0 0 "") false None) eth2
                (fun a b => eq_refl) eq_refl) as (_ & _ & _ & _ & H800 & _).
  split; [exact (H709 "" eq_refl)|].
  split; [exact (H710 "" eq_refl)|].
  split; [exact (H800 "" eq_refl)|].
  split; [exact Hv1 | exact Hv2].
Defined.


(** ** Round trips *)

(** What the specify functions return for a layer3, a layer2 and a
    virtual-wire record, in closed form. *)
Lemma specify_v1_layer3 `{U : Util} (e : Entry) :
  Mode e = "layer3" ->
  specify_v1 e = Wire_v1
    {| entry_v1.Name := Name e;
       entry_v1.ModeL2 := None;
       entry_v1.ModeL3 := Some
         {| l3Mode_v1.Ipv6 :=
              {| ipv6.Enabled := YesNo (Ipv6Enabled e);
                 ipv6.Address := mkRawXml <$> map_index (raw e) "ipv6" |};
            l3Mode_v1.ManagementProfile := ManagementProfile e;
            l3Mode_v1.Mtu := Mtu e;
            l3Mode_v1.NetflowProfile := NetflowProfile e;
            l3Mode_v1.AdjustTcpMss := YesNo (AdjustTcpMss e);
            l3Mode_v1.StaticIps := StrToEnt (StaticIps e);
            l3Mode_v1.Dhcp :=
              if wants_dhcp e then Some (new_dhcpSettings e) else None;
            l3Mode_v1.Arp := mkRawXml <$> map_index (raw e) "arp";
            l3Mode_v1.Subinterface :=
              mkRawXml <$> map_index (raw e) "l3subinterface" |};
       entry_v1.ModeVwire := None; entry_v1.TapMode := None;
       entry_v1.HaMode := None; entry_v1.DecryptMirrorMode := None;
       entry_v1.AggregateGroupMode := None;
       entry_v1.LinkSpeed := LinkSpeed e;
       entry_v1.LinkDuplex := LinkDuplex e;
       entry_v1.LinkState := LinkState e;
       entry_v1.Comment := Comment e |}.
Proof.
  intros Hm. unfold specify_v1. rewrite Hm. cbn [String.eqb Ascii.eqb Bool.eqb].
  destruct (wants_dhcp e), (map_index (raw e) "arp"),
    (map_index (raw e) "l3subinterface"), (map_index (raw e) "ipv6");
    reflexivity.
Qed.

Lemma specify_v2_layer3 `{U : Util} (e : Entry) :
  Mode e = "layer3" ->
  specify_v2 e = Wire_v2
    {| entry_v2.Name := Name e;
       entry_v2.ModeL3 := Some
         {| l3Mode_v2.Ipv6 :=
              {| ipv6.Enabled := YesNo (Ipv6Enabled e);
                 ipv6.Address := mkRawXml <$> map_index (raw e) "ipv6" |};
            l3Mode_v2.ManagementProfile := ManagementProfile e;
            l3Mode_v2.Mtu := Mtu e;
            l3Mode_v2.NetflowProfile := NetflowProfile e;
            l3Mode_v2.AdjustTcpMss := YesNo (AdjustTcpMss e);
            l3Mode_v2.Ipv4MssAdjust := Ipv4MssAdjust e;
            l3Mode_v2.Ipv6MssAdjust := Ipv6MssAdjust e;
            l3Mode_v2.StaticIps := StrToEnt (StaticIps e);
            l3Mode_v2.Dhcp :=
              if wants_dhcp e then Some (new_dhcpSettings e) else None;
            l3Mode_v2.Arp := mkRawXml <$> map_index (raw e) "arp";
            l3Mode_v2.Subinterface :=
              mkRawXml <$> map_index (raw e) "l3subinterface" |};
       entry_v2.ModeL2 := None;
       entry_v2.ModeVwire := None; entry_v2.TapMode := None;
       entry_v2.HaMode := None; entry_v2.DecryptMirrorMode := None;
       entry_v2.AggregateGroupMode := None;
       entry_v2.LinkSpeed := LinkSpeed e;
       entry_v2.LinkDuplex := LinkDuplex e;
       entry_v2.LinkState := LinkState e;
       entry_v2.Comment := Comment e |}.
Proof.
  intros Hm. unfold specify_v2. rewrite Hm. cbn [String.eqb Ascii.eqb Bool.eqb].
  destruct (wants_dhcp e), (map_index (raw e) "arp"),
    (map_index (raw e) "l3subinterface"), (map_index (raw e) "ipv6");
    reflexivity.
Qed.

Lemma specify_v1_layer2 `{U : Util} (e : Entry) :
  Mode e = "layer2" ->
  specify_v1 e = Wire_v1
    (entry_v1.set_ModeL2
       (Some {| otherMode.LldpEnabled := YesNo (LldpEnabled e);
                otherMode.LldpProfile := LldpProfile e;
                otherMode.NetflowProfile := NetflowProfile e;
                otherMode.Subinterface :=
                  mkRawXml <$> map_index (raw e) "l2subinterface" |})
       (bare_v1 e)).
Proof.
  intros Hm. unfold specify_v1. rewrite Hm.
  cbn [String.eqb Ascii.eqb Bool.eqb].
  destruct (map_index (raw e) "l2subinterface"); reflexivity.
Qed.

Lemma specify_v2_layer2 `{U : Util} (e : Entry) :
  Mode e = "layer2" ->
  specify_v2 e = Wire_v2
    (entry_v2.set_ModeL2
       (Some {| otherMode.LldpEnabled := YesNo (LldpEnabled e);
                otherMode.LldpProfile := LldpProfile e;
                otherMode.NetflowProfile := NetflowProfile e;
                otherMode.Subinterface :=
                  mkRawXml <$> map_index (raw e) "l2subinterface" |})
       (bare_v2 e)).
Proof.
  intros Hm. unfold specify_v2. rewrite Hm.
  cbn [String.eqb Ascii.eqb Bool.eqb].
  destruct (map_index (raw e) "l2subinterface"); reflexivity.
Qed.

Lemma specify_v1_vwire `{U : Util} (e : Entry) :
  Mode e = "virtual-wire" ->
  specify_v1 e =
  Wire_v1 (entry_v1.set_ModeVwire (Some (new_otherMode e)) (bare_v1 e)).
Proof. intros Hm. unfold specify_v1. rewrite Hm. reflexivity. Qed.

Lemma specify_v2_vwire `{U : Util} (e : Entry) :
  Mode e = "virtual-wire" ->
  specify_v2 e =
  Wire_v2 (entry_v2.set_ModeVwire (Some (new_otherMode e)) (bare_v2 e)).
Proof. intros Hm. unfold specify_v2. rewrite Hm. reflexivity. Qed.

Ltac lookups :=
  repeat first
    [ rewrite map_index_store
    | rewrite map_index_store_ne by discriminate
    | rewrite map_index_empty ].

Ltac finish_round_trip :=
  repeat match goal with
         | H : YesNo (AsBool ?s) = ?s |- _ => rewrite !H; clear H
         | H : StrToEnt (EntToStr ?s) = ?s |- _ => rewrite !H; clear H
         end;
  reflexivity.

(** The DHCP test of specify on a record that [Normalize] made from a block
    that is absent, or present and not at its defaults. *)
Lemma wants_dhcp_canonical `{U : Util} (dh : option dhcpSettings.t) (e : Entry) :
  canonical_dhcp dh ->
  EnableDhcp e =
    match dh with Some d => AsBool (dhcpSettings.Enable d) | None => false end ->
  CreateDhcpDefaultRoute e =
    match dh with
    | Some d => AsBool (dhcpSettings.CreateDefaultRoute d)
    | None => false
    end ->
  DhcpDefaultRouteMetric e =
    match dh with Some d => dhcpSettings.Metric d | None => 0%Z end ->
  wants_dhcp e = bool_decide (is_Some dh).
Proof.
  intros Hc E1 E2 E3. destruct dh as [[den dcdr dm]|]; cbn in *.
  - apply wants_dhcp_iff. rewrite E1, E2, E3. tauto.
  - unfold wants_dhcp. rewrite E1, E2, E3. reflexivity.
Qed.

Ltac normalized :=
  eexists; split; [cbn -[insert empty]; reflexivity|].

Create HintDb wire.
#[local] Hint Unfold new_otherMode new_dhcpSettings bare_v1 bare_v2
  l3Mode_v1.set_Ipv6 l3Mode_v1.set_Arp l3Mode_v1.set_Subinterface
  l3Mode_v2.set_Ipv6 l3Mode_v2.set_Arp l3Mode_v2.set_Subinterface
  ipv6.set_Address otherMode.set_Subinterface
  entry_v1.set_ModeL3 entry_v1.set_ModeL2 entry_v1.set_ModeVwire
  entry_v2.set_ModeL3 entry_v2.set_ModeL2 entry_v2.set_ModeVwire : wire.

Ltac specified :=
  cbn -[wants_dhcp map_index insert empty]; lookups;
  autounfold with wire; cbn.

(** C1, as amended. For a wire object of either schema with exactly one
    mode sub-object, in which every yes/no field holds the text [YesNo]
    gives for the boolean [AsBool] reads from it, the address list survives
    [EntToStr] followed by [StrToEnt], a [dhcp-client] block, when present,
    is not at its defaults, a virtual-wire sub-object has no [units] block
    and, for schema v1 only, the layer3 and layer2 sub-objects carry no
    fragment: [Normalize] returns a record and the specify function of the
    same schema turns it into the original entry with the text of each
    fragment replaced by its cleaned text. *)
Theorem round_trip_canonical `{U : Util} (o : normalizer) :
  well_formed o -> canonical o -> round_trip o (cleaned o).
Proof.
  unfold well_formed, cleaned, clean_l3Mode_v1, clean_l3Mode_v2,
    clean_otherMode, clean_raw.
  destruct o as [[a]|[a]]; destruct a as [? m1 m2 m3 m4 m5 m6 m7 ? ? ? ?];
    intros Hwf Hc.
  - (* schema v1: m2 is layer3, m1 is layer2 *)
    destruct m2 as [l3|]; [|destruct m1 as [l2|]; [|destruct m3 as [vw|]]].
    + destruct m1, m3, m4, m5, m6, m7; try discriminate Hwf. clear Hwf.
      destruct Hc as ((Hen & Hadj & Hips & Hd) & _ & _ & (Harp & Hsub & Haddr) & _).
      destruct l3 as [[en addr] mp mtu nf adj ips dh arp sub].
      cbn in Hen, Hadj, Hips, Hd, Harp, Hsub, Haddr. subst arp sub addr.
      pose proof (wants_dhcp_canonical dh) as Hw.
      destruct dh as [[den dcdr dm]|]; normalized;
        rewrite specify_v1_layer3 by reflexivity;
        rewrite Hw by (try reflexivity; exact Hd);
        clear Hw; specified; cbn in Hd; try destruct Hd as (? & ? & ?);
        (unfold yes_no_text in *; finish_round_trip).
    + destruct m3, m4, m5, m6, m7; try discriminate Hwf. clear Hwf.
      destruct Hc as (_ & Hen & _ & _ & Hsub).
      destruct l2 as [en pr nf sub]. cbn in Hen, Hsub. subst sub.
      normalized. rewrite specify_v1_layer2 by reflexivity.
      specified. (unfold yes_no_text in *; finish_round_trip).
    + destruct m4, m5, m6, m7; try discriminate Hwf. clear Hwf.
      destruct Hc as (_ & _ & (Hen & Hsub) & _).
      destruct vw as [en pr nf sub]. cbn in Hen, Hsub. subst sub.
      normalized. rewrite specify_v1_vwire by reflexivity.
      specified. (unfold yes_no_text in *; finish_round_trip).
    + destruct m4 as [[]|], m5 as [[]|], m6 as [[]|], m7 as [[]|];
        try discriminate Hwf; normalized; reflexivity.
  - (* schema v2: m1 is layer3, m2 is layer2 *)
    destruct m1 as [l3|]; [|destruct m2 as [l2|]; [|destruct m3 as [vw|]]].
    + destruct m2, m3, m4, m5, m6, m7; try discriminate Hwf. clear Hwf.
      destruct Hc as ((Hen & Hadj & Hips & Hd) & _ & _).
      destruct l3 as [[en addr] mp mtu nf adj a4 a6 ips dh arp sub].
      cbn in Hen, Hadj, Hips, Hd.
      pose proof (wants_dhcp_canonical dh) as Hw.
      destruct dh as [[den dcdr dm]|], arp as [[ta]|], sub as [[ts]|],
        addr as [[td]|]; normalized;
        rewrite specify_v2_layer3 by reflexivity;
        rewrite Hw by (try reflexivity; exact Hd);
        clear Hw; specified; cbn in Hd; try destruct Hd as (? & ? & ?);
        (unfold yes_no_text in *; finish_round_trip).
    + destruct m3, m4, m5, m6, m7; try discriminate Hwf. clear Hwf.
      destruct Hc as (_ & Hen & _).
      destruct l2 as [en pr nf [[ts]|]]; cbn in Hen; normalized;
        rewrite specify_v2_layer2 by reflexivity;
        specified; (unfold yes_no_text in *; finish_round_trip).
    + destruct m4, m5, m6, m7; try discriminate Hwf. clear Hwf.
      destruct Hc as (_ & _ & (Hen & Hsub)).
      destruct vw as [en pr nf sub]. cbn in Hen, Hsub. subst sub.
      normalized. rewrite specify_v2_vwire by reflexivity.
      specified. (unfold yes_no_text in *; finish_round_trip).
    + destruct m4 as [[]|], m5 as [[]|], m6 as [[]|], m7 as [[]|];
        try discriminate Hwf; normalized; reflexivity.
Qed.

Lemma round_trip_canonical_witness :
  (well_formed (U := ref_util) (Obj_v2 l3_arp_v2) /\
   canonical (U := ref_util) (Obj_v2 l3_arp_v2) /\
   round_trip (U := ref_util) (Obj_v2 l3_arp_v2) (cleaned (Obj_v2 l3_arp_v2))) /\
  (well_formed (U := ref_util) (Obj_v1 tap_v1) /\
   canonical (U := ref_util) (Obj_v1 tap_v1) /\
   round_trip (U := ref_util) (Obj_v1 tap_v1) (original (Obj_v1 tap_v1))).
Proof.
  assert (W2 : well_formed (U := ref_util) (Obj_v2 l3_arp_v2)) by reflexivity.
  assert (C2 : canonical (U := ref_util) (Obj_v2 l3_arp_v2))
    by (cbn; unfold yes_no_text; cbn; tauto).
  assert (W1 : well_formed (U := ref_util) (Obj_v1 tap_v1)) by reflexivity.
  assert (C1 : canonical (U := ref_util) (Obj_v1 tap_v1))
    by (cbn; unfold fragment_free_v1; cbn; tauto).
  split; (split; [assumption|split; [assumption|]]).
  - exact (round_trip_canonical (U := ref_util) (Obj_v2 l3_arp_v2) W2 C2).
  - exact (round_trip_canonical (U := ref_util) (Obj_v1 tap_v1) W1 C1).
Defined.

(** C1, as stated, fails. A v2 wire object whose only mode sub-object is
    virtual-wire, with a [units] block, is well formed, and what [specify_v2]
    makes of its normalized record is not the original entry: the [units]
    block is neither kept by [Normalize] nor written by [specify_v2]. So is a
    v2 wire object in layer3 mode whose [dhcp-client] block has both flags
    off and no metric: [specify_v2] writes no [dhcp-client] block for its
    record. *)
Lemma round_trip_not_identity :
  (well_formed (U := ref_util) (Obj_v2 vwire_units_v2) /\
   ~ round_trip (U := ref_util) (Obj_v2 vwire_units_v2)
       (original (Obj_v2 vwire_units_v2))) /\
  (well_formed (U := ref_util) (Obj_v2 l3_dhcp_off_v2) /\
   ~ round_trip (U := ref_util) (Obj_v2 l3_dhcp_off_v2)
       (original (Obj_v2 l3_dhcp_off_v2))).
Proof.
  split; (split; [reflexivity|]); intros [e [Hn Hs]];
    cbn -[insert empty] in Hn; injection Hn as <-.
  - rewrite specify_v2_vwire in Hs by reflexivity.
    cbv in Hs. discriminate Hs.
  - rewrite specify_v2_layer3 in Hs by reflexivity.
    cbv in Hs. discriminate Hs.
Qed.


(** ** The manager operations *)

Ltac run_M :=
  unfold mbind, M_bind, mret, M_ret, lift, do_Versioning, do_LogQuery,
    do_LogAction, do_Get, do_Show, do_Set, do_Edit, do_Delete,
    do_ImportInterfaces, do_UnimportInterfaces, do_EntryListUsing.

Section Manager.
Context `{U : Util} {B : BulkConfig} {O : Type} {C : XapiClient O}.

Lemma collection_path_eq :
  collection_path =
  ["config"; "devices"; AsEntryXpath (Some ["localhost.localdomain"]);
   "network"; "interface"; "ethernet"].
Proof. reflexivity. Qed.

Lemma interface_path_eq :
  interface_path =
  ["config"; "devices"; AsEntryXpath (Some ["localhost.localdomain"]);
   "network"; "interface"].
Proof. reflexivity. Qed.

(** A run of [Set] on a batch that is not empty: the version is read, the
    action is logged, one write request is sent, and the import follows
    when the write succeeded. *)
Lemma Eth_Set_run (vsys : string) (x : Entry) (e : list Entry) (d : conn) :
  let names := map Name (x :: e) in
  let path := match e with [] => collection_path | _ => interface_path end in
  let d1 := LogAction "(set) ethernet interfaces: %v" names d in
  let start := [Call_Versioning;
                Call_LogAction "(set) ethernet interfaces: %v" names;
                Call_Set path (Set_element d (x :: e))] in
  Eth_Set vsys (x :: e) d =
  match con_Set path (Set_element d (x :: e)) d1 with
  | (Some err, d2) => (Done (Some err), d2, start)
  | (None, d2) =>
    let '(r, d3) := ImportInterfaces vsys (Some names) d2 in
    (Done r, d3, (start ++ [Call_ImportInterfaces vsys (Some names)])%list)
  end.
Proof.
  unfold Eth_Set, Eth_versioning, Set_element, specify_for.
  cbn [length Nat.eqb]. run_M.
  destruct e as [|y e];
    destruct (Gte (Versioning d) (mkNumber 7 1 0 ""));
    cbv zeta; cbn [length Nat.eqb Eth_xpath firstn Nat.sub];
    change (firstn _ _) with collection_path || change (firstn _ _) with interface_path.
  all: destruct (con_Set _ _ _) as [[err|] d2]; try reflexivity;
    destruct (ImportInterfaces _ _ _) as [r d3]; reflexivity.
Qed.

(** C5, as amended. [Set] with no record returns success and calls nothing on
    the connection. [Set] with one record sends one write request, at the
    path of the collection of interfaces (the path [xpath] builds without its
    last segment, the entry selector), and [Set] with two or more records
    sends one write request, at the parent of that collection (without the
    last two segments); the element is in both cases what [Config] makes of
    the bulk element named [ethernet] that holds every specified record. *)
Theorem Set_batch_paths (vsys : string) (e : list Entry) (d : conn) :
  match e with
  | [] => Eth_Set vsys e d = (Done None, d, [])
  | [_] =>
    set_calls (calls_of (Eth_Set vsys e d)) =
    [(["config"; "devices"; AsEntryXpath (Some ["localhost.localdomain"]);
       "network"; "interface"; "ethernet"], Set_element d e)]
  | _ =>
    set_calls (calls_of (Eth_Set vsys e d)) =
    [(["config"; "devices"; AsEntryXpath (Some ["localhost.localdomain"]);
       "network"; "interface"], Set_element d e)]
  end.
Proof.
  destruct e as [|x [|y e]]; [reflexivity| |];
    rewrite Eth_Set_run; cbv zeta;
    destruct (con_Set _ _ _) as [[err|] d2]; try reflexivity;
    destruct (ImportInterfaces _ _ _) as [r d3]; reflexivity.
Qed.

End Manager.

(** C5, as stated, fails: the write request of [Set] with the one record
    [ethernet1/1] goes to the path of the collection, which is not the path of
    that entry, and the write request of [Set] with two records goes to the
    parent of the collection, not to the collection. *)
Lemma Set_paths_are_not_the_stated_ones :
  set_paths (calls_of (Eth_Set (C := ref_client) "vsys1" [eth1] accepting))
    = [collection_path] /\
  collection_path (U := ref_util) <> single_entry_path (Name eth1) /\
  set_paths (calls_of (Eth_Set (C := ref_client) "vsys1" [eth1; eth2] accepting))
    = [interface_path] /\
  interface_path (U := ref_util) <> collection_path.
Proof.
  split; [reflexivity|]. split; [discriminate|].
  split; [reflexivity|]. discriminate.
Qed.

Section Delete.
Context `{U : Util} {O : Type} {C : XapiClient O}.

(** The loop of [Delete] on identifiers that are all strings or entries. *)
Lemma delete_names_named (e : list (any O)) (acc : list string) :
  Forall (fun v => is_Some (name_of v)) e ->
  delete_names e acc = inr (acc ++ omap name_of e)%list.
Proof.
  intros Hall. revert acc.
  induction Hall as [|v e [n Hn] _ IH]; intros acc; cbn.
  - by rewrite app_nil_r.
  - destruct v as [s|x|o]; cbn in Hn; try discriminate Hn;
      rewrite IH, <- app_assoc; reflexivity.
Qed.

(** The loop of [Delete] stops at the first value of another type. *)
Lemma delete_names_other (pre post : list (any O)) (o : O) (acc : list string) :
  Forall (fun v => is_Some (name_of v)) pre ->
  delete_names (pre ++ AOther o :: post) acc =
  inl (Errorf "Unknown type sent to delete: %s" (AOther o)).
Proof.
  intros Hall. revert acc.
  induction Hall as [|v e [n Hn] _ IH]; intros acc; cbn; [reflexivity|].
  destruct v as [s|x|o']; cbn in Hn; try discriminate Hn; apply IH.
Qed.

(** A run of [Delete] whose identifiers gave the names [names]. *)
Lemma Eth_Delete_run (vsys : string) (e : list (any O)) (names : list string)
    (d : conn) :
  e <> [] ->
  delete_names e [] = inr names ->
  let d1 := LogAction "(delete) ethernet interface(s): %v" names d in
  let start := [Call_LogAction "(delete) ethernet interface(s): %v" names;
                Call_UnimportInterfaces vsys (Some names)] in
  Eth_Delete vsys e d =
  match UnimportInterfaces vsys (Some names) d1 with
  | (Some err, d2) => (Done (Some err), d2, start)
  | (None, d2) =>
    let '(r, d3) := con_Delete (Eth_xpath (Some names)) d2 in
    (Done r, d3, (start ++ [Call_Delete (Eth_xpath (Some names))])%list)
  end.
Proof.
  intros Hne Hnames. unfold Eth_Delete. rewrite Hnames.
  destruct e as [|v e]; [congruence|]. cbn [length Nat.eqb]. run_M. cbv zeta.
  destruct (UnimportInterfaces _ _ _) as [[err|] d2]; [reflexivity|].
  destruct (con_Delete _ _) as [r d3]. reflexivity.
Qed.

(** A run of [Delete] makes no call, or logs and unimports, or logs,
    unimports and deletes. *)
Lemma Eth_Delete_calls (vsys : string) (e : list (any O)) (d : conn) :
  calls_of (Eth_Delete vsys e d) = [] \/
  exists names,
    let log := Call_LogAction "(delete) ethernet interface(s): %v" names in
    let unimport := Call_UnimportInterfaces vsys (Some names) in
    (calls_of (Eth_Delete vsys e d) = [log; unimport] \/
     (calls_of (Eth_Delete vsys e d) =
        [log; unimport; Call_Delete (Eth_xpath (Some names))] /\
      fst (UnimportInterfaces vsys (Some names)
             (LogAction "(delete) ethernet interface(s): %v" names d)) = None)).
Proof.
  destruct e as [|v e]; [left; reflexivity|].
  destruct (delete_names (v :: e) []) as [err|names] eqn:Hnames.
  - left. unfold Eth_Delete. rewrite Hnames. reflexivity.
  - right. exists names. cbv zeta.
    rewrite (Eth_Delete_run vsys (v :: e) names d) by (congruence || assumption).
    cbv zeta.
    destruct (UnimportInterfaces _ _ _) as [[err|] d2]; [left; reflexivity|].
    right. destruct (con_Delete _ _) as [r d3]. split; reflexivity.
Qed.


(** C7. [Delete] with no identifier returns success and calls nothing.
    [Delete] takes the name of each identifier that is a string (the string)
    or an entry (its [Name]), in order, and for identifiers that are all of
    these two kinds it logs, then unimports exactly these names, and a delete
    request, if made, is at the path that [xpath] builds from them. When an
    identifier is of another type, [Delete] returns the error made from the
    format [Unknown type sent to delete: %s] and the first such value, has
    called nothing and leaves the connection as it was. *)
Theorem Delete_identifiers (vsys : string) (pre post : list (any O)) (o : O)
    (d : conn) :
  Forall (fun v => is_Some (name_of v)) pre ->
  Eth_Delete vsys [] d = (Done None, d, []) /\
  Eth_Delete vsys (pre ++ AOther o :: post) d =
    (Done (Some (Errorf "Unknown type sent to delete: %s" (AOther o))), d, []) /\
  delete_names pre [] = inr (omap name_of pre) /\
  (pre <> [] ->
   let names := omap name_of pre in
   let log := Call_LogAction "(delete) ethernet interface(s): %v" names in
   let unimport := Call_UnimportInterfaces vsys (Some names) in
   calls_of (Eth_Delete vsys pre d) = [log; unimport] \/
   calls_of (Eth_Delete vsys pre d) =
     [log; unimport; Call_Delete (Eth_xpath (Some names))]).
Proof.
  intros Hall. split; [reflexivity|]. split; [|split].
  - unfold Eth_Delete. rewrite (delete_names_other pre post o [] Hall).
    destruct pre; reflexivity.
  - apply (delete_names_named pre [] Hall).
  - intros Hne. cbv zeta.
    rewrite (Eth_Delete_run vsys pre (omap name_of pre) d Hne
               (delete_names_named pre [] Hall)).
    cbv zeta.
    destruct (UnimportInterfaces _ _ _) as [[err|] d2]; [left; reflexivity|].
    right. destruct (con_Delete _ _) as [r d3]. reflexivity.
Qed.

End Delete.


Lemma Delete_identifiers_witness :
  Forall (fun v => is_Some (name_of (O := Z) v))
    [AString "ethernet1/1"; AEntry eth2] /\
  Eth_Delete (C := ref_client) "vsys1"
    [AString "ethernet1/1"; AEntry eth2; AOther 7%Z; AString "ethernet1/3"]
    accepting =
  (Done (Some (Errorf "Unknown type sent to delete: %s" (AOther 7%Z))),
   accepting, []) /\
  delete_names (O := Z) [AString "ethernet1/1"; AEntry eth2] [] =
    inr ["ethernet1/1"; "ethernet1/2"].
Proof.
  assert (Hall : Forall (fun v => is_Some (name_of (O := Z) v))
                   [AString "ethernet1/1"; AEntry eth2])
    by (repeat constructor; eexists; reflexivity).
  split; [exact Hall|].
  destruct (Delete_identifiers (C := ref_client) "vsys1"
              [AString "ethernet1/1"; AEntry eth2] [AString "ethernet1/3"]
              7%Z accepting Hall) as (_ & Hother & Hnames & _).
  split; [exact Hother | exact Hnames].
Defined.

Section Read.
Context `{U : Util} {O : Type} {C : XapiClient O}.



End Read.



(** * Further properties *)

(** ** The fragments map *)

Lemma map_index_key (m : gmap string string) (key k v : string) :
  map_index (Some (<[key:=v]> m)) k =
  if String.eqb k key then Some v else map_index (Some m) k.
Proof.
  destruct (String.eqb_spec k key) as [->|Hne].
  - apply map_index_store.
  - apply map_index_store_ne. congruence.
Qed.

Ltac key_cases k :=
  rewrite ?map_index_key, ?map_index_empty;
  destruct (String.eqb_spec k "arp");
  destruct (String.eqb_spec k "l3subinterface");
  destruct (String.eqb_spec k "ipv6");
  try congruence; try reflexivity.

(** X1. The v2 [Normalize] returns a record for every wire object, and the
    fragments map of that record holds, under every key, exactly what the
    selected sub-object carries: under [arp], [l3subinterface] and [ipv6] the
    cleaned text of the ARP, units and IPv6 address block of a layer3
    sub-object, under [l2subinterface] the cleaned text of the units block
    of a layer2 sub-object that is read when there is no layer3 one, and
    nothing under a key whose block is absent or under any other key. *)
Theorem Normalize_v2_fragments `{U : Util} (o : container_v2.t) (k : string) :
  exists ans,
    container_v2_Normalize o = Done ans /\
    map_index (raw ans) k = fragment_at (Obj_v2 o) k.
Proof.
  destruct o as [a]; destruct a as [? m1 m2 m3 m4 m5 m6 m7 ? ? ? ?].
  destruct m1 as [l3|]; [|destruct m2 as [l2|]].
  - destruct l3 as [[? [[td]|]] ? ? ? ? ? ? ? [] [[ta]|] [[ts]|]];
      (eexists; split; [cbn -[insert empty]; reflexivity|]);
      cbn -[insert empty map_index String.eqb]; key_cases k.
  - destruct l2 as [? ? ? [[ts]|]];
      (eexists; split; [cbn -[insert empty]; reflexivity|]);
      cbn -[insert empty map_index String.eqb];
      rewrite ?map_index_key, ?map_index_empty;
      destruct (String.eqb k "l2subinterface"); reflexivity.
  - destruct m3, m4, m5, m6, m7;
      (eexists; split; [cbn -[insert empty]; reflexivity|]);
      cbn -[insert empty map_index]; apply map_index_empty.
Qed.

(** X2. The v1 [Normalize] returns a record exactly when the sub-object it
    selects carries no fragment block; the fragments map of the record it
    returns is the [nil] map, so that no key is found in it. *)
Theorem Normalize_v1_returns_iff `{U : Util} (o : container_v1.t) :
  ((exists ans, container_v1_Normalize o = Done ans) <->
   selected_has_fragment (Obj_v1 o) = false) /\
  (forall ans, container_v1_Normalize o = Done ans ->
               raw ans = None /\
               forall k, map_index (raw ans) k = fragment_at (Obj_v1 o) k).
Proof.
  destruct o as [a]; destruct a as [? m1 m2 m3 m4 m5 m6 m7 ? ? ? ?].
  destruct m2 as [l3|]; [|destruct m1 as [l2|]].
  - destruct l3 as [[? [[td]|]] ? ? ? ? ? [] [[ta]|] [[ts]|]]; cbn;
      (split; [split; [intros [ans H]; try discriminate H; reflexivity
                      | intros H; try discriminate H; eauto]
              | intros ans H;
                first [ discriminate H
                      | injection H as <-; split; [reflexivity|]; intros k; cbn;
                        repeat match goal with
                               | |- context [String.eqb ?a ?b] =>
                                 destruct (String.eqb a b)
                               end; reflexivity ]]).
  - destruct l2 as [? ? ? [[ts]|]]; cbn;
      (split; [split; [intros [ans H]; try discriminate H; reflexivity
                      | intros H; try discriminate H; eauto]
              | intros ans H;
                first [ discriminate H
                      | injection H as <-; split; [reflexivity|]; intros k; cbn;
                        repeat match goal with
                               | |- context [String.eqb ?a ?b] =>
                                 destruct (String.eqb a b)
                               end; reflexivity ]]).
  - destruct m3, m4, m5, m6, m7; cbn;
      (split; [split; [intros _; reflexivity | intros _; eauto]
              | intros ans H; injection H as <-; split; reflexivity]).
Qed.


(** ** The shape of what specify returns *)

(** The mode tag a specify function acts on: the mode of the record when it
    is one of the seven tags, the empty string otherwise. *)
Lemma first_tag (m : string) :
  (In m mode_tags /\
   (m = "layer3" \/ m = "layer2" \/ m = "virtual-wire" \/ m = "tap" \/
    m = "ha" \/ m = "decrypt-mirror" \/ m = "aggregate-group")) \/
  (~ In m mode_tags /\
   String.eqb m "layer3" = false /\ String.eqb m "layer2" = false /\
   String.eqb m "virtual-wire" = false /\ String.eqb m "tap" = false /\
   String.eqb m "ha" = false /\ String.eqb m "decrypt-mirror" = false /\
   String.eqb m "aggregate-group" = false).
Proof.
  unfold mode_tags. cbn [In].
  destruct (String.eqb_spec m "layer3"); [left; split; auto|].
  destruct (String.eqb_spec m "layer2"); [left; split; auto|].
  destruct (String.eqb_spec m "virtual-wire"); [left; split; auto 6|].
  destruct (String.eqb_spec m "tap"); [left; split; auto 7|].
  destruct (String.eqb_spec m "ha"); [left; split; auto 8|].
  destruct (String.eqb_spec m "decrypt-mirror"); [left; split; auto 9|].
  destruct (String.eqb_spec m "aggregate-group"); [left; split; auto 10|].
  right. split; [|repeat split; reflexivity].
  intros H. repeat (destruct H as [H|H]; [congruence|]). exact H.
Qed.

(** X3. What a specify function returns is a well-formed or a bare entry: for
    a record whose mode is one of the seven tags it has exactly one mode
    sub-object, the one of that tag, and for any other mode it has none;
    its identity and link fields are those of the record. *)
Theorem specify_one_mode `{U : Util} (e : Entry) :
  (In (Mode e) mode_tags ->
   count_present (present (container_of (specify_v1 e))) = 1 /\
   count_present (present (container_of (specify_v2 e))) = 1 /\
   selected (container_of (specify_v1 e)) = Mode e /\
   selected (container_of (specify_v2 e)) = Mode e) /\
  (~ In (Mode e) mode_tags ->
   count_present (present (container_of (specify_v1 e))) = 0 /\
   count_present (present (container_of (specify_v2 e))) = 0) /\
  identity_of (container_of (specify_v1 e)) = identity_fields e /\
  identity_of (container_of (specify_v2 e)) = identity_fields e.
Proof.
  destruct (first_tag (Mode e)) as [[Hin Hm]|[Hout Hm]].
  - assert (Hgoal :
      count_present (present (container_of (specify_v1 e))) = 1 /\
      count_present (present (container_of (specify_v2 e))) = 1 /\
      selected (container_of (specify_v1 e)) = Mode e /\
      selected (container_of (specify_v2 e)) = Mode e /\
      identity_of (container_of (specify_v1 e)) = identity_fields e /\
      identity_of (container_of (specify_v2 e)) = identity_fields e).
    { destruct Hm as [Hm|[Hm|[Hm|[Hm|[Hm|[Hm|Hm]]]]]].
      - rewrite specify_v1_layer3, specify_v2_layer3 by exact Hm.
        rewrite Hm. repeat split; reflexivity.
      - rewrite specify_v1_layer2, specify_v2_layer2 by exact Hm.
        rewrite Hm. repeat split; reflexivity.
      - rewrite specify_v1_vwire, specify_v2_vwire by exact Hm.
        rewrite Hm. repeat split; reflexivity.
      - unfold specify_v1, specify_v2. rewrite Hm. repeat split; reflexivity.
      - unfold specify_v1, specify_v2. rewrite Hm. repeat split; reflexivity.
      - unfold specify_v1, specify_v2. rewrite Hm. repeat split; reflexivity.
      - unfold specify_v1, specify_v2. rewrite Hm. repeat split; reflexivity. }
    destruct Hgoal as (H1 & H2 & H3 & H4 & H5 & H6).
    split; [intros _; auto|]. split; [intros Hn; contradiction|]. auto.
  - destruct Hm as (E1 & E2 & E3 & E4 & E5 & E6 & E7).
    assert (Hs1 : specify_v1 e = Wire_v1 (bare_v1 e))
      by (unfold specify_v1; rewrite E1, E2, E3, E4, E5, E6, E7; reflexivity).
    assert (Hs2 : specify_v2 e = Wire_v2 (bare_v2 e))
      by (unfold specify_v2; rewrite E1, E2, E3, E4, E5, E6, E7; reflexivity).
    rewrite Hs1, Hs2.
    split; [intros Hin; contradiction|]. repeat split; reflexivity.
Qed.

(** ** Objects with several mode sub-objects *)

(** X4. [Normalize] reads only the first mode sub-object that is present, in
    the order layer3, layer2, virtual-wire, tap, ha, decrypt-mirror,
    aggregate-group: it gives the same result, record or panic, on a wire
    object and on that object with every other mode sub-object removed. *)
Theorem Normalize_only_selected `{U : Util} (o : normalizer) :
  Normalize (only_selected o) = Normalize o /\
  count_present (present (only_selected o)) <= 1 /\
  selected (only_selected o) = selected o.
Proof.
  destruct o as [[a]|[a]]; destruct a as [? m1 m2 m3 m4 m5 m6 m7 ? ? ? ?].
  - destruct m2 as [l3|]; [|destruct m1 as [l2|]];
      [| |destruct m3 as [vw|]; [|destruct m4, m5, m6, m7]];
      cbn; repeat split; auto.
  - destruct m1 as [l3|]; [|destruct m2 as [l2|]];
      [| |destruct m3 as [vw|]; [|destruct m4, m5, m6, m7]];
      cbn -[insert empty]; repeat split; auto.
Qed.

(** X5. Whatever the wire object, well formed or not, when [Normalize]
    returns a record, the specify function of the same schema turns it into
    an entry with the identity and link fields of the object and with
    exactly the mode sub-object that [Normalize] selected (none when the
    object had none). *)
Theorem specify_Normalize_keeps_mode `{U : Util} (o : normalizer) (e : Entry) :
  Normalize o = Done e ->
  selected (container_of (specify_like o e)) = selected o /\
  identity_of (container_of (specify_like o e)) = identity_of o /\
  count_present (present (container_of (specify_like o e))) =
    count_present (present (only_selected o)).
Proof.
  intros Hn.
  destruct o as [[a]|[a]]; destruct a as [? m1 m2 m3 m4 m5 m6 m7 ? ? ? ?];
    cbn [specify_like].
  - destruct m2 as [l3|]; [|destruct m1 as [l2|]; [|destruct m3 as [vw|]]].
    + destruct l3 as [[? []] ? ? ? ? ? [] [] []]; cbn in Hn;
        try discriminate Hn; injection Hn as <-;
        rewrite specify_v1_layer3 by reflexivity; repeat split; reflexivity.
    + destruct l2 as [? ? ? []]; cbn in Hn;
        try discriminate Hn; injection Hn as <-;
        rewrite specify_v1_layer2 by reflexivity; repeat split; reflexivity.
    + cbn in Hn. injection Hn as <-.
      rewrite specify_v1_vwire by reflexivity. repeat split; reflexivity.
    + destruct m4, m5, m6, m7; cbn in Hn; injection Hn as <-;
        repeat split; reflexivity.
  - destruct m1 as [l3|]; [|destruct m2 as [l2|]; [|destruct m3 as [vw|]]].
    + destruct l3 as [[? []] ? ? ? ? ? ? ? [] [] []]; cbn -[insert empty] in Hn;
        injection Hn as <-;
        rewrite specify_v2_layer3 by reflexivity; repeat split; reflexivity.
    + destruct l2 as [? ? ? []]; cbn -[insert empty] in Hn;
        injection Hn as <-;
        rewrite specify_v2_layer2 by reflexivity; repeat split; reflexivity.
    + cbn -[insert empty] in Hn. injection Hn as <-.
      rewrite specify_v2_vwire by reflexivity. repeat split; reflexivity.
    + destruct m4, m5, m6, m7; cbn -[insert empty] in Hn; injection Hn as <-;
        repeat split; reflexivity.
Qed.


(** ** Writing a record back and reading it again *)

(** When the test of specify for a DHCP block fails, the three DHCP values
    are at their zero values. *)
Lemma no_dhcp_zero (en cdr : bool) (m : Z) :
  en || cdr || negb (m =? 0)%Z = false ->
  en = false /\ cdr = false /\ m = 0%Z.
Proof.
  rewrite !orb_false_iff, negb_false_iff, Z.eqb_eq. tauto.
Qed.

(** X6. A record that [Normalize] returned is stable under writing and
    reading: when [AsBool] reads back the text [YesNo] writes, [EntToStr]
    reads back what [StrToEnt] writes for a list it returned, and cleaning a
    cleaned fragment text of the object changes nothing, the specify function
    of the same schema followed by [Normalize] returns that same record. *)
Theorem Normalize_specify_stable `{U : Util} (o : normalizer) (e : Entry) :
  (forall b, AsBool (YesNo b) = b) ->
  (forall x, EntToStr (StrToEnt (EntToStr x)) = EntToStr x) ->
  (forall t, In t (fragment_texts o) ->
             CleanRawXml (CleanRawXml t) = CleanRawXml t) ->
  Normalize o = Done e ->
  Normalize (container_of (specify_like o e)) = Done e.
Proof.
  intros Hb He Hc Hn.
  destruct o as [[a]|[a]]; destruct a as [? m1 m2 m3 m4 m5 m6 m7 ? ? ? ?];
    cbn [specify_like].
  - (* schema v1 *)
    destruct m2 as [l3|]; [|destruct m1 as [l2|]; [|destruct m3 as [vw|]]].
    + destruct l3 as [[en []] mp mtu nf adj ips [[den dcdr dm]|] [] []];
        cbn in Hn; try discriminate Hn; injection Hn as <-;
        rewrite specify_v1_layer3 by reflexivity;
        cbn -[wants_dhcp]; unfold wants_dhcp; cbn.
      * destruct (AsBool den || AsBool dcdr || negb (dm =? 0)%Z) eqn:Hw; cbn.
        -- rewrite ?Hb, ?He. reflexivity.
        -- apply no_dhcp_zero in Hw. destruct Hw as (-> & -> & ->).
           rewrite ?Hb, ?He. reflexivity.
      * rewrite ?Hb, ?He. reflexivity.
    + destruct l2 as [en pr nf []]; cbn in Hn;
        try discriminate Hn; injection Hn as <-.
      rewrite specify_v1_layer2 by reflexivity. cbn. rewrite ?Hb. reflexivity.
    + cbn in Hn. injection Hn as <-.
      rewrite specify_v1_vwire by reflexivity. cbn. rewrite ?Hb. reflexivity.
    + destruct m4, m5, m6, m7; cbn in Hn; injection Hn as <-; reflexivity.
  - (* schema v2 *)
    destruct m1 as [l3|]; [|destruct m2 as [l2|]; [|destruct m3 as [vw|]]].
    + destruct l3 as [[en addr] mp mtu nf adj a4 a6 ips dh arp sub].
      destruct dh as [[den dcdr dm]|], arp as [[ta]|], sub as [[ts]|],
        addr as [[td]|]; cbn -[insert empty] in Hn, Hc; injection Hn as <-;
        rewrite specify_v2_layer3 by reflexivity;
        cbn -[wants_dhcp map_index insert empty];
        rewrite ?map_index_key, ?map_index_empty;
        cbn -[wants_dhcp insert empty]; unfold wants_dhcp;
        cbn -[insert empty];
        try (destruct (AsBool den || AsBool dcdr || negb (dm =? 0)%Z) eqn:Hw;
             cbn -[insert empty];
             [|apply no_dhcp_zero in Hw; destruct Hw as (-> & -> & ->)]);
        rewrite ?Hb, ?He, ?(Hc ta), ?(Hc ts), ?(Hc td) by tauto;
        reflexivity.
    + destruct l2 as [en pr nf [[ts]|]]; cbn -[insert empty] in Hn, Hc;
        injection Hn as <-;
        rewrite specify_v2_layer2 by reflexivity;
        cbn -[map_index insert empty];
        rewrite ?map_index_key, ?map_index_empty;
        cbn -[insert empty];
        rewrite ?Hb, ?(Hc ts) by tauto; reflexivity.
    + cbn -[insert empty] in Hn. injection Hn as <-.
      rewrite specify_v2_vwire by reflexivity. cbn -[insert empty].
      rewrite ?Hb. reflexivity.
    + destruct m4, m5, m6, m7; cbn -[insert empty] in Hn; injection Hn as <-;
        reflexivity.
Qed.


(** ** What specify reads *)

(** X7. The specify functions read only the mode, the identity and link
    fields, and the fields and fragments of the mode of the record: two
    records that agree on these are written as the same entry, whatever their
    other fields hold ([AggregateGroup], the fields of the other modes, the
    other keys of the fragments map) and whether their fragments maps are
    [nil] or allocated. *)
Theorem specify_reads_mode_fields `{U : Util} (e e' : Entry) :
  same_for_specify e e' ->
  specify_v1 e = specify_v1 e' /\ specify_v2 e = specify_v2 e'.
Proof.
  intros (Hmode & Hid & H3 & Hl & H2).
  assert (Hbare : bare_v1 e = bare_v1 e' /\ bare_v2 e = bare_v2 e').
  { unfold identity_fields in Hid. injection Hid as Hn Hs Hd Hst Hc.
    unfold bare_v1, bare_v2. rewrite Hn, Hs, Hd, Hst, Hc. split; reflexivity. }
  destruct Hbare as [Hb1 Hb2].
  destruct (first_tag (Mode e)) as [[_ Hm]|[_ Hm]].
  - destruct Hm as [Hm|[Hm|[Hm|[Hm|[Hm|[Hm|Hm]]]]]];
      assert (Hm' : Mode e' = Mode e) by congruence; rewrite Hm in Hm'.
    + destruct (H3 Hm) as (E1 & E2 & E3 & E4 & E5 & E6 & E7 & E8 & E9 & E10 &
                           E11 & E12 & E13 & E14).
      rewrite !specify_v1_layer3, !specify_v2_layer3 by assumption.
      unfold identity_fields in Hid. injection Hid as Hn Hs Hd Hst Hc.
      unfold wants_dhcp, new_dhcpSettings.
      rewrite E1, E2, E3, E4, E5, E6, E7, E8, E9, E10, E11, E12, E13, E14,
        Hn, Hs, Hd, Hst, Hc.
      split; reflexivity.
    + destruct (Hl (or_introl Hm)) as (E1 & E2 & E3). specialize (H2 Hm).
      rewrite !specify_v1_layer2, !specify_v2_layer2 by assumption.
      rewrite E1, E2, E3, H2, Hb1, Hb2. split; reflexivity.
    + destruct (Hl (or_intror Hm)) as (E1 & E2 & E3).
      rewrite !specify_v1_vwire, !specify_v2_vwire by assumption.
      unfold new_otherMode. rewrite E1, E2, E3, Hb1, Hb2. split; reflexivity.
    + unfold specify_v1, specify_v2. rewrite Hm, Hm'.
      cbn [String.eqb Ascii.eqb Bool.eqb]. fold (bare_v1 e) (bare_v1 e')
        (bare_v2 e) (bare_v2 e'). rewrite Hb1, Hb2. split; reflexivity.
    + unfold specify_v1, specify_v2. rewrite Hm, Hm'.
      cbn [String.eqb Ascii.eqb Bool.eqb]. fold (bare_v1 e) (bare_v1 e')
        (bare_v2 e) (bare_v2 e'). rewrite Hb1, Hb2. split; reflexivity.
    + unfold specify_v1, specify_v2. rewrite Hm, Hm'.
      cbn [String.eqb Ascii.eqb Bool.eqb]. fold (bare_v1 e) (bare_v1 e')
        (bare_v2 e) (bare_v2 e'). rewrite Hb1, Hb2. split; reflexivity.
    + unfold specify_v1, specify_v2. rewrite Hm, Hm'.
      cbn [String.eqb Ascii.eqb Bool.eqb]. fold (bare_v1 e) (bare_v1 e')
        (bare_v2 e) (bare_v2 e'). rewrite Hb1, Hb2. split; reflexivity.
  - destruct Hm as (E1 & E2 & E3 & E4 & E5 & E6 & E7).
    unfold specify_v1, specify_v2. rewrite <- Hmode.
    rewrite E1, E2, E3, E4, E5, E6, E7.
    fold (bare_v1 e) (bare_v1 e') (bare_v2 e) (bare_v2 e').
    rewrite Hb1, Hb2. split; reflexivity.
Qed.

(** A layer2 record that carries stale layer3 values, MSS adjustments and an
    aggregate group is written as the record without them. *)
Lemma specify_reads_mode_fields_witness :
  same_for_specify eth4_stale eth4 /\
  specify_v1 (U := ref_util) eth4_stale = specify_v1 eth4 /\
  specify_v2 (U := ref_util) eth4_stale = specify_v2 eth4.
Proof.
  assert (Hs : same_for_specify eth4_stale eth4).
  { unfold same_for_specify, same_lldp. cbn.
    split; [reflexivity|]. split; [reflexivity|].
    split; [intros H; discriminate H|].
    split; [intros _; repeat split | intros _; reflexivity]. }
  split; [exact Hs|].
  exact (specify_reads_mode_fields (U := ref_util) eth4_stale eth4 Hs).
Defined.


(** ** Writes and their follow-up *)

Section Writes.
Context `{U : Util} {B : BulkConfig} {O : Type} {C : XapiClient O}.

(** X8. [Set] with at least one record queries the version once, logs, and
    sends one write request. When the write fails, [Set] returns the error
    of the write and makes no import call. When it succeeds, [Set] then
    imports into the given vsys the names of the records, in the order of
    the records, and returns what the import returns, its error included. *)
Theorem Set_write_then_import (vsys : string) (x : Entry) (e : list Entry)
    (d d2 : conn) (r : option (error O)) :
  con_Set (match e with [] => collection_path | _ => interface_path end)
    (Set_element d (x :: e))
    (LogAction "(set) ethernet interfaces: %v" (map Name (x :: e)) d)
  = (r, d2) ->
  match r with
  | Some err =>
    Eth_Set vsys (x :: e) d =
    (Done (Some err), d2,
     [Call_Versioning;
      Call_LogAction "(set) ethernet interfaces: %v" (map Name (x :: e));
      Call_Set (match e with [] => collection_path | _ => interface_path end)
        (Set_element d (x :: e))])
  | None =>
    Eth_Set vsys (x :: e) d =
    (Done (ImportInterfaces vsys (Some (map Name (x :: e))) d2).1,
     (ImportInterfaces vsys (Some (map Name (x :: e))) d2).2,
     [Call_Versioning;
      Call_LogAction "(set) ethernet interfaces: %v" (map Name (x :: e));
      Call_Set (match e with [] => collection_path | _ => interface_path end)
        (Set_element d (x :: e));
      Call_ImportInterfaces vsys (Some (map Name (x :: e)))])
  end.
Proof.
  intros Hset. rewrite Eth_Set_run. cbv zeta. rewrite Hset.
  destruct r as [err|]; [reflexivity|].
  destruct (ImportInterfaces _ _ _) as [r' d3]. reflexivity.
Qed.

(** A run of [Edit]. *)
Lemma Eth_Edit_run (vsys : string) (e : Entry) (d : conn) :
  let start :=
    [Call_Versioning;
     Call_LogAction "(edit) ethernet interface: %v" [Name e];
     Call_Edit (single_entry_path (Name e)) (Elem_wire (specify_for d e))] in
  Eth_Edit vsys e d =
  match con_Edit (single_entry_path (Name e)) (Elem_wire (specify_for d e))
          (LogAction "(edit) ethernet interface: %v" [Name e] d) with
  | (Some err, d2) => (Done (Some err), d2, start)
  | (None, d2) =>
    let '(r, d3) := ImportInterfaces vsys (Some [Name e]) d2 in
    (Done r, d3, (start ++ [Call_ImportInterfaces vsys (Some [Name e])])%list)
  end.
Proof.
  unfold Eth_Edit, Eth_versioning, specify_for, single_entry_path.
  run_M.
  destruct (Gte (Versioning d) (mkNumber 7 1 0 "")); cbv zeta;
    destruct (con_Edit _ _ _) as [[err|] d2]; try reflexivity;
    destruct (ImportInterfaces _ _ _) as [r' d3]; reflexivity.
Qed.

(** X9. [Edit] queries the version once, logs, and sends one edit request
    at the path of the entry of the record, with the entry that the specify
    function of the version makes of the record. When the edit fails, [Edit]
    returns its error and makes no import call; when it succeeds, [Edit]
    imports the name of the record into the given vsys and returns what the
    import returns. *)
Theorem Edit_write_then_import (vsys : string) (e : Entry) (d d2 : conn)
    (r : option (error O)) :
  con_Edit (single_entry_path (Name e)) (Elem_wire (specify_for d e))
    (LogAction "(edit) ethernet interface: %v" [Name e] d) = (r, d2) ->
  match r with
  | Some err =>
    Eth_Edit vsys e d =
    (Done (Some err), d2,
     [Call_Versioning;
      Call_LogAction "(edit) ethernet interface: %v" [Name e];
      Call_Edit (single_entry_path (Name e)) (Elem_wire (specify_for d e))])
  | None =>
    Eth_Edit vsys e d =
    (Done (ImportInterfaces vsys (Some [Name e]) d2).1,
     (ImportInterfaces vsys (Some [Name e]) d2).2,
     [Call_Versioning;
      Call_LogAction "(edit) ethernet interface: %v" [Name e];
      Call_Edit (single_entry_path (Name e)) (Elem_wire (specify_for d e));
      Call_ImportInterfaces vsys (Some [Name e])])
  end.
Proof.
  intros Hedit. rewrite Eth_Edit_run. cbv zeta. rewrite Hedit.
  destruct r as [err|]; [reflexivity|].
  destruct (ImportInterfaces _ _ _) as [r' d3]. reflexivity.
Qed.

(** X10. When the identifiers of [Delete] give names and the unimport of
    these names succeeds, [Delete] sends one delete request for all the
    names, at the path that [xpath] builds from them, and returns what that
    request returns. *)
Theorem Delete_after_unimport (vsys : string) (e : list (any O))
    (names : list string) (d d2 d3 : conn) (r : option (error O)) :
  e <> [] ->
  delete_names e [] = inr names ->
  UnimportInterfaces vsys (Some names)
    (LogAction "(delete) ethernet interface(s): %v" names d) = (None, d2) ->
  con_Delete (Eth_xpath (Some names)) d2 = (r, d3) ->
  Eth_Delete vsys e d =
  (Done r, d3,
   [Call_LogAction "(delete) ethernet interface(s): %v" names;
    Call_UnimportInterfaces vsys (Some names);
    Call_Delete (Eth_xpath (Some names))]).
Proof.
  intros Hne Hnames Hun Hdel.
  rewrite (Eth_Delete_run vsys e names d Hne Hnames). cbv zeta.
  rewrite Hun, Hdel. reflexivity.
Qed.

End Writes.

(** ** Reads *)

Section Reads.
Context `{U : Util} {O : Type} {C : XapiClient O}.



End Reads.


(** ** Every operation *)

Section Invariants.
Context `{U : Util} {B : BulkConfig} {O : Type} {C : XapiClient O}.

(** The calls of each operation, whatever the connection answers. *)
Lemma Eth_List_calls (d : conn) :
  calls_of (Eth_ShowList d) =
    [Call_LogQuery "(show) list of ethernet interfaces" [];
     Call_EntryListUsing true collection_path] /\
  calls_of (Eth_GetList d) =
    [Call_LogQuery "(get) list of ethernet interfaces" [];
     Call_EntryListUsing false collection_path].
Proof.
  unfold Eth_ShowList, Eth_GetList, collection_path. run_M.
  split; destruct (EntryListUsing _ _ _) as [r d2]; reflexivity.
Qed.

Lemma Eth_Get_calls (name : string) (d : conn) :
  calls_of (Eth_Get name d) =
  [Call_LogQuery "(get) ethernet interface %q" [name];
   Call_Versioning;
   Call_Get (single_entry_path name)
     (object_for (LogQuery "(get) ethernet interface %q" [name] d))].
Proof.
  unfold Eth_Get, Eth_details, Eth_versioning, object_for, single_entry_path.
  run_M.
  destruct (Gte (Versioning _) (mkNumber 7 1 0 ""));
    destruct (con_Get _ _ _) as [[obj [err|]] d2]; cbn; try reflexivity;
    destruct (Normalize obj); reflexivity.
Qed.

Lemma Eth_Show_calls (name : string) (d : conn) :
  calls_of (Eth_Show name d) =
  [Call_LogQuery "(show) ethernet interface %q" [name];
   Call_Versioning;
   Call_Show (single_entry_path name)
     (object_for (LogQuery "(show) ethernet interface %q" [name] d))].
Proof.
  unfold Eth_Show, Eth_details, Eth_versioning, object_for, single_entry_path.
  run_M.
  destruct (Gte (Versioning _) (mkNumber 7 1 0 ""));
    destruct (con_Show _ _ _) as [[obj [err|]] d2]; cbn; try reflexivity;
    destruct (Normalize obj); reflexivity.
Qed.

Lemma Eth_Set_calls (vsys : string) (x : Entry) (e : list Entry) (d : conn) :
  let start :=
    [Call_Versioning;
     Call_LogAction "(set) ethernet interfaces: %v" (map Name (x :: e));
     Call_Set (match e with [] => collection_path | _ => interface_path end)
       (Set_element d (x :: e))] in
  calls_of (Eth_Set vsys (x :: e) d) = start \/
  calls_of (Eth_Set vsys (x :: e) d) =
    (start ++ [Call_ImportInterfaces vsys (Some (map Name (x :: e)))])%list.
Proof.
  cbv zeta. rewrite Eth_Set_run. cbv zeta.
  destruct (con_Set _ _ _) as [[err|] d2]; [left; reflexivity|].
  destruct (ImportInterfaces _ _ _) as [r d3]. right. reflexivity.
Qed.

Lemma Eth_Edit_calls (vsys : string) (e : Entry) (d : conn) :
  let start :=
    [Call_Versioning;
     Call_LogAction "(edit) ethernet interface: %v" [Name e];
     Call_Edit (single_entry_path (Name e)) (Elem_wire (specify_for d e))] in
  calls_of (Eth_Edit vsys e d) = start \/
  calls_of (Eth_Edit vsys e d) =
    (start ++ [Call_ImportInterfaces vsys (Some [Name e])])%list.
Proof.
  cbv zeta. rewrite Eth_Edit_run. cbv zeta.
  destruct (con_Edit _ _ _) as [[err|] d2]; [left; reflexivity|].
  destruct (ImportInterfaces _ _ _) as [r d3]. right. reflexivity.
Qed.

(** X12. Every path that an operation of the namespace hands to the
    connection, in a list, read, write, edit or delete request, lies under
    [config/devices/entry(localhost.localdomain)/network/interface]: it is
    that path followed by further segments. *)
Theorem paths_under_interface (op : operation) (d : conn) (c : call)
    (p : list string) :
  In c (op_calls op d) ->
  call_path c = Some p ->
  exists rest, p = (interface_path ++ rest)%list.
Proof.
  intros Hin Hp.
  assert (Hsel : forall vals, Eth_xpath vals =
                   (interface_path ++ ["ethernet"; AsEntryXpath vals])%list)
    by reflexivity.
  assert (Hcol : collection_path = (interface_path ++ ["ethernet"])%list)
    by reflexivity.
  assert (Hint : interface_path = (interface_path ++ [])%list)
    by (symmetry; apply app_nil_r).
  destruct op as [| |name|name|vsys e|vsys e|vsys e]; cbn [op_calls] in Hin.
  - rewrite (proj1 (Eth_List_calls d)) in Hin.
    destruct Hin as [<-|[<-|[]]]; [discriminate Hp|].
    injection Hp as <-. exists ["ethernet"]. reflexivity.
  - rewrite (proj2 (Eth_List_calls d)) in Hin.
    destruct Hin as [<-|[<-|[]]]; [discriminate Hp|].
    injection Hp as <-. exists ["ethernet"]. reflexivity.
  - rewrite Eth_Get_calls in Hin.
    destruct Hin as [<-|[<-|[<-|[]]]]; try discriminate Hp.
    injection Hp as <-. eexists. apply Hsel.
  - rewrite Eth_Show_calls in Hin.
    destruct Hin as [<-|[<-|[<-|[]]]]; try discriminate Hp.
    injection Hp as <-. eexists. apply Hsel.
  - destruct e as [|x e]; [destruct Hin|].
    destruct (Eth_Set_calls vsys x e d) as [H|H]; rewrite H in Hin;
      cbn in Hin;
      repeat (destruct Hin as [<-|Hin]; [try discriminate Hp|]);
      try destruct Hin;
      injection Hp as <-; destruct e; eauto.
  - destruct (Eth_Edit_calls vsys e d) as [H|H]; rewrite H in Hin;
      cbn in Hin;
      repeat (destruct Hin as [<-|Hin]; [try discriminate Hp|]);
      try destruct Hin;
      injection Hp as <-; eexists; apply Hsel.
  - destruct (Eth_Delete_calls vsys e d) as [H|[names [H|[H _]]]];
      rewrite H in Hin; cbn in Hin;
      repeat (destruct Hin as [<-|Hin]; [try discriminate Hp|]);
      try destruct Hin.
    injection Hp as <-. eexists. apply Hsel.
Qed.

(** X13. The version of the device is queried exactly once by [Get], by
    [Show], by [Edit] and by [Set] with at least one record, whatever the
    size of the batch and whatever the connection answers, and never by
    [Set] without records, by [Delete], by [ShowList] or by [GetList]. *)
Theorem versioning_once (op : operation) (d : conn) :
  count_versioning (op_calls op d) =
  match op with
  | Op_Get _ | Op_Show _ | Op_Edit _ _ | Op_Set _ (_ :: _) => 1
  | _ => 0
  end.
Proof.
  destruct op as [| |name|name|vsys e|vsys e|vsys e]; cbn [op_calls].
  - rewrite (proj1 (Eth_List_calls d)). reflexivity.
  - rewrite (proj2 (Eth_List_calls d)). reflexivity.
  - rewrite Eth_Get_calls. reflexivity.
  - rewrite Eth_Show_calls. reflexivity.
  - destruct e as [|x e]; [reflexivity|].
    destruct (Eth_Set_calls vsys x e d) as [H|H]; rewrite H; reflexivity.
  - destruct (Eth_Edit_calls vsys e d) as [H|H]; rewrite H; reflexivity.
  - destruct (Eth_Delete_calls vsys e d) as [H|[names [H|[H _]]]];
      rewrite H; reflexivity.
Qed.

End Invariants.


(** ** Concrete runs of the further properties *)

(** A v1 tap interface is normalized, with a [nil] fragments map. *)
Lemma Normalize_v1_returns_iff_witness :
  selected_has_fragment (U := ref_util) (Obj_v1 tap_v1) = false /\
  exists ans, container_v1_Normalize (U := ref_util) tap_v1 = Done ans /\
              raw ans = None.
Proof.
  split; [reflexivity|].
  destruct (Normalize_v1_returns_iff (U := ref_util) tap_v1) as [[_ Hret] Hraw].
  destruct (Hret eq_refl) as [ans Hans].
  exists ans. split; [exact Hans|]. exact (proj1 (Hraw ans Hans)).
Defined.

(** A v2 object with a layer3 and a tap sub-object: what is written back
    has the layer3 sub-object only. *)
Lemma specify_Normalize_keeps_mode_witness :
  exists e, Normalize (U := ref_util) (Obj_v2 l3_and_tap_v2) = Done e /\
            count_present (present (U := ref_util) (Obj_v2 l3_and_tap_v2)) = 2 /\
            selected (container_of (specify_v2 (U := ref_util) e)) = "layer3" /\
            count_present (present (container_of (specify_v2 (U := ref_util) e))) = 1.
Proof.
  eexists. split; [reflexivity|]. split; [reflexivity|].
  match goal with
  | |- selected (container_of (specify_v2 ?e)) = _ /\ _ =>
    destruct (specify_Normalize_keeps_mode (U := ref_util)
                (Obj_v2 l3_and_tap_v2) e eq_refl) as (Hs & _ & Hc)
  end.
  split; [exact Hs | exact Hc].
Defined.

(** A layer3 interface with DHCP on, MSS adjustments and an ARP block whose
    text the cleaning leaves as it is. *)
Lemma Normalize_specify_stable_witness :
  (forall b, AsBool (Util := ref_util) (YesNo b) = b) /\
  (forall t, In t (fragment_texts (U := ref_util) (Obj_v2 l3_plain_arp_v2)) ->
             CleanRawXml (Util := ref_util) (CleanRawXml t) = CleanRawXml t) /\
  exists e, Normalize (U := ref_util) (Obj_v2 l3_plain_arp_v2) = Done e /\
            Normalize (container_of (specify_v2 (U := ref_util) e)) = Done e.
Proof.
  assert (Hb : forall b, AsBool (Util := ref_util) (YesNo b) = b)
    by (intros []; reflexivity).
  assert (Hc : forall t,
             In t (fragment_texts (U := ref_util) (Obj_v2 l3_plain_arp_v2)) ->
             CleanRawXml (Util := ref_util) (CleanRawXml t) = CleanRawXml t).
  { intros t [<-|[]]. reflexivity. }
  split; [exact Hb|]. split; [exact Hc|].
  eexists. split; [reflexivity|].
  exact (Normalize_specify_stable (U := ref_util) (Obj_v2 l3_plain_arp_v2) _
           Hb (fun x => eq_refl) Hc eq_refl).
Defined.

(** A batch of two records on a device that refuses the write, and on one
    that accepts it. *)
Lemma Set_write_then_import_witness :
  Eth_Set (C := ref_client) "vsys1" [eth1; eth2] refusing =
  (Done (Some (Err "request refused")), refusing,
   [Call_Versioning;
    Call_LogAction "(set) ethernet interfaces: %v" ["ethernet1/1"; "ethernet1/2"];
    Call_Set interface_path (Set_element (C := ref_client) refusing [eth1; eth2])]) /\
  calls_of (Eth_Set (C := ref_client) "vsys1" [eth1; eth2] accepting) =
  [Call_Versioning;
   Call_LogAction "(set) ethernet interfaces: %v" ["ethernet1/1"; "ethernet1/2"];
   Call_Set interface_path (Set_element (C := ref_client) accepting [eth1; eth2]);
   Call_ImportInterfaces "vsys1" (Some ["ethernet1/1"; "ethernet1/2"])].
Proof.
  split.
  - exact (Set_write_then_import (C := ref_client) "vsys1" eth1 [eth2]
             refusing refusing (Some (Err "request refused")) eq_refl).
  - exact (f_equal calls_of
             (Set_write_then_import (C := ref_client) "vsys1" eth1 [eth2]
                accepting accepting None eq_refl)).
Defined.

Lemma Edit_write_then_import_witness :
  Eth_Edit (C := ref_client) "vsys1" eth1 accepting =
  (Done None, accepting,
   [Call_Versioning;
    Call_LogAction "(edit) ethernet interface: %v" ["ethernet1/1"];
    Call_Edit ["config"; "devices"; "entry[@name='localhost.localdomain']";
               "network"; "interface"; "ethernet";
               "entry[@name='ethernet1/1']"]
      (Elem_wire (specify_v2 eth1));
    Call_ImportInterfaces "vsys1" (Some ["ethernet1/1"])]).
Proof.
  exact (Edit_write_then_import (C := ref_client) "vsys1" eth1
           accepting accepting None eq_refl).
Defined.

Lemma Delete_after_unimport_witness :
  Eth_Delete (C := ref_client) "vsys1"
    [AString "ethernet1/1"; AEntry eth2] accepting =
  (Done None, accepting,
   [Call_LogAction "(delete) ethernet interface(s): %v"
      ["ethernet1/1"; "ethernet1/2"];
    Call_UnimportInterfaces "vsys1" (Some ["ethernet1/1"; "ethernet1/2"]);
    Call_Delete ["config"; "devices"; "entry[@name='localhost.localdomain']";
                 "network"; "interface"; "ethernet";
                 "entry[@name='ethernet1/1' or @name='ethernet1/2']"]]).
Proof.
  refine (Delete_after_unimport (C := ref_client) "vsys1"
            [AString "ethernet1/1"; AEntry eth2]
            ["ethernet1/1"; "ethernet1/2"] accepting accepting accepting None
            _ eq_refl eq_refl eq_refl).
  discriminate.
Defined.


Lemma paths_under_interface_witness :
  exists rest,
    Eth_xpath (U := ref_util) (Some ["ethernet1/1"; "ethernet1/2"]) =
    (interface_path ++ rest)%list.
Proof.
  refine (paths_under_interface (C := ref_client)
            (Op_Delete "vsys1" [AString "ethernet1/1"; AEntry eth2]) accepting
            (Call_Delete (Eth_xpath (Some ["ethernet1/1"; "ethernet1/2"])))
            _ _ eq_refl).
  right. right. left. reflexivity.
Defined.

(** ** Writing a record whose mode carries no fields *)

(** X14. A record whose mode is not layer3, layer2 or virtual-wire, written
    by a specify function and read back by the [Normalize] of the same
    schema, comes back with its identity and link fields, with its mode when
    that is tap, ha, decrypt-mirror or aggregate-group and with the empty
    mode otherwise, and with every other field at its zero value: whatever
    else the record held, an unknown mode included, is not kept. *)
Theorem write_read_without_fields `{U : Util} (e : Entry) :
  Mode e <> "layer3" -> Mode e <> "layer2" -> Mode e <> "virtual-wire" ->
  Normalize (container_of (specify_v1 e)) =
    Done (identity_record e (known_mode (Mode e)) None) /\
  Normalize (container_of (specify_v2 e)) =
    Done (identity_record e (known_mode (Mode e)) (Some ∅)).
Proof.
  intros N3 N2 Nv.
  destruct (first_tag (Mode e)) as [[_ Hm]|[_ Hm]].
  - destruct Hm as [Hm|[Hm|[Hm|[Hm|[Hm|[Hm|Hm]]]]]]; try contradiction;
      unfold specify_v1, specify_v2; rewrite Hm; split; reflexivity.
  - destruct Hm as (E1 & E2 & E3 & E4 & E5 & E6 & E7).
    unfold specify_v1, specify_v2, known_mode, mode_tags. cbn [existsb].
    rewrite E1, E2, E3, E4, E5, E6, E7. split; reflexivity.
Qed.

(** A record with the unknown mode [loopback] comes back with the empty
    mode; a tap record comes back without its netflow profile and aggregate
    group. *)
Lemma write_read_without_fields_witness :
  Normalize (container_of (specify_v2 (U := ref_util) eth3)) =
    Done (identity_record eth3 "" (Some ∅)) /\
  Normalize (container_of (specify_v1 (U := ref_util) eth5)) =
    Done (identity_record eth5 "tap" None).
Proof.
  split.
  - refine (proj2 (write_read_without_fields (U := ref_util) eth3 _ _ _));
      discriminate.
  - refine (proj1 (write_read_without_fields (U := ref_util) eth5 _ _ _));
      discriminate.
Defined.
